(** * Skill-match and interview-readiness engine

    A shallow embedding of the algorithmic parts of the career assistant:
    - the skill match analysis of [app/main.py] (matched / missing / extra
      skills and the match score),
    - the skill extraction with its NER-to-lexicon fallback ([app/main.py]),
    - the interview readiness aggregation and the fallback answer
      evaluation of [src/interview_prep.py].

    Numbers.  Python [int] and [float] values are embedded as exact
    rationals ([Q]): [/] is exact division, comparisons are exact, and
    [round(x, 1)] rounds the exact value to the nearest tenth, ties to the
    even tenth.  Binary64 rounding error is not part of this model.
    Equality of numbers is therefore [Qeq] (written [==]).

    Dictionaries are [gmap string pyval]; a key that is absent from a dict
    is a lookup that returns [None]. *)

From Stdlib Require Import ZArith QArith Qround Qabs Lia Lqa Ascii String.
From stdpp Require Import gmap strings list.

#[local] Set Warnings "-clear-no-such-hyp".
#[local] Open Scope Q_scope.

(** ** Python values and exceptions *)

#[warnings="-register-all"]
Inductive pyval :=
| VNum (q : Q)
| VStr (s : string)
| VList (l : list string)
| VDict (d : gmap string pyval).

(** An instance of Python's [Exception] hierarchy: its class name and the
    text [str(e)]. *)
Record py_exn := PyExn { exn_class : string; exn_text : string }.

Definition TypeError : py_exn :=
  PyExn "TypeError" "unsupported operand type(s) for +".

(** A call either returns a value or raises. *)
Inductive result (A : Type) :=
| Ok (a : A)
| Raise (e : py_exn).
Arguments Ok {A} a.
Arguments Raise {A} e.

#[global] Instance result_ret : MRet result := @Ok.

#[global] Instance result_bind : MBind result := λ A B k r,
  match r with
  | Ok a => k a
  | Raise e => Raise e
  end.

#[global] Instance result_fmap : FMap result := λ A B f r,
  match r with
  | Ok a => Ok (f a)
  | Raise e => Raise e
  end.

(** [len(xs)] as a Python number. *)
Definition len {A : Type} (xs : list A) : Q := inject_Z (Z.of_nat (length xs)).

(** [len(s)] for a Python set. *)
Definition set_len (s : gset string) : Q := inject_Z (Z.of_nat (size s)).

(** ** Skill match analysis ([app/main.py], lines 815-822)

    [resume_skills] and [jd_skills] are the collections returned by the
    skill extractor.  The code passes both through [set(...)] before the
    set operations and takes [len(jd_skills)] of the collection itself, so
    they are embedded as lists; a skill set is a list without duplicates. *)

Definition py_set (skills : list string) : gset string := list_to_set skills.

Definition matched_skills (resume_skills jd_skills : list string) : gset string :=
  py_set resume_skills ∩ py_set jd_skills.

Definition missing_skills (resume_skills jd_skills : list string) : gset string :=
  py_set jd_skills ∖ py_set resume_skills.

Definition extra_skills (resume_skills jd_skills : list string) : gset string :=
  py_set resume_skills ∖ py_set jd_skills.

(** Truth value of a list: [if jd_skills]. *)
Definition truthy {A : Type} (xs : list A) : bool :=
  match xs with
  | [] => false
  | _ :: _ => true
  end.

(** [len(matched_skills) / len(jd_skills) * 100 if jd_skills else 0] *)
Definition match_score (resume_skills jd_skills : list string) : Q :=
  if truthy jd_skills
  then set_len (matched_skills resume_skills jd_skills) / len jd_skills * 100
  else 0.

Record match_result := MatchResult {
  mr_matched : gset string;
  mr_missing : gset string;
  mr_extra : gset string;
  mr_score : Q
}.

(** The block is guarded by
    [if resume_text and jd_text and resume_skills and jd_skills]:
    it only runs when both texts and both skill lists are non-empty. *)
Definition skill_match_analysis
    (resume_text jd_text : string) (resume_skills jd_skills : list string)
  : option match_result :=
  if bool_decide (resume_text ≠ EmptyString) && bool_decide (jd_text ≠ EmptyString)
     && truthy resume_skills && truthy jd_skills
  then Some (MatchResult (matched_skills resume_skills jd_skills)
                         (missing_skills resume_skills jd_skills)
                         (extra_skills resume_skills jd_skills)
                         (match_score resume_skills jd_skills))
  else None.

(** ** Skill extraction with fallback ([app/main.py], lines 748-755 and 793-800)

    [extract_skills] (lexicon strategy, module [skills]) and
    [extract_skills_ner] (module [ner_skill_extractor]) are collaborators of
    the extraction step; either call returns a skill list or raises.  The
    first component of the result collects the [st.warning] messages. *)

Section SkillExtraction.

Variable extract_skills : string → result (list string).
Variable extract_skills_ner : string → result (list string).

Definition ner_warning (e : py_exn) : string :=
  "NER extraction failed, falling back to basic extraction: " +:+ exn_text e.

(** [if use_ner: try: ... = extract_skills_ner(text)
     except Exception as e: st.warning(...); ... = extract_skills(text)
     else: ... = extract_skills(text)] *)
Definition extract_document_skills (use_ner : bool) (text : string)
  : list string * result (list string) :=
  if use_ner then
    match extract_skills_ner text with
    | Ok skills => ([], Ok skills)
    | Raise e => ([ner_warning e], extract_skills text)
    end
  else ([], extract_skills text).

End SkillExtraction.

(** ** Python strings

    A Python [str] is a sequence of Unicode code points, and [len], slicing
    and [split] count code points.  The texts on which the code uses these
    operations are embedded as lists of code points; the texts that are only
    compared, searched for ASCII characters or passed on remain [string]s. *)

#[warnings="-notation-for-abbreviation"]
Notation pystr := (list N).

(** A literal whose characters are all below U+0100. *)
Definition py_str (s : string) : pystr := N_of_ascii <$> list_ascii_of_string s.

(** ** Fallback answer evaluation ([src/interview_prep.py], lines 189-217) *)

(** The code points that [str.split()] takes for whitespace: TAB, LF, VT,
    FF, CR, FS, GS, RS, US, SPACE, NEL (U+0085), NBSP (U+00A0), U+1680,
    U+2000 to U+200A, U+2028, U+2029, U+202F, U+205F and U+3000. *)
Definition py_isspace (c : N) : bool :=
  (((9 <=? c) && (c <=? 13)) || ((28 <=? c) && (c <=? 32))
   || (c =? 133) || (c =? 160) || (c =? 5760)
   || ((8192 <=? c) && (c <=? 8202)) || (c =? 8232) || (c =? 8233)
   || (c =? 8239) || (c =? 8287) || (c =? 12288))%N.

Definition flush_word (word : pystr) (rest : list pystr) : list pystr :=
  match word with
  | [] => rest
  | _ :: _ => rev word :: rest
  end.

(** [word] holds the characters of the word being read, last one first. *)
Fixpoint py_split_from (word : pystr) (s : pystr) : list pystr :=
  match s with
  | [] => flush_word word []
  | c :: s' =>
      if py_isspace c
      then flush_word word (py_split_from [] s')
      else py_split_from (c :: word) s'
  end.

(** [s.split()]: the maximal runs of non-whitespace characters. *)
Definition py_split (s : pystr) : list pystr := py_split_from [] s.

Definition word_count (user_answer : pystr) : nat := length (py_split user_answer).

(** The [if word_count > 100 / elif word_count > 50 / else] ladder. *)
Definition fallback_score_rating (word_count : nat) : Z * string :=
  if (100 <? word_count)%nat then (85%Z, "good")
  else if (50 <? word_count)%nat then (70%Z, "satisfactory")
  else (55%Z, "needs_improvement").

Definition VInt (z : Z) : pyval := VNum (inject_Z z).

Definition _create_fallback_evaluation
    (question : gmap string pyval) (user_answer : pystr) : gmap string pyval :=
  let '(score, rating) := fallback_score_rating (word_count user_answer) in
  list_to_map [
    ("overall_score", VInt score);
    ("scores", VDict (list_to_map [
       ("technical_depth", VInt (score - 5));
       ("communication", VInt (score + 5));
       ("problem_solving", VInt score);
       ("relevance", VInt (score + 10))
     ]));
    ("strengths", VList ["Provided a response"; "Showed engagement"]);
    ("improvements", VList ["Add more specific examples"; "Include technical details"]);
    ("detailed_feedback", VStr "Your answer shows engagement with the question. Consider adding more specific examples and technical details to strengthen your response.");
    ("follow_up_suggestions", VList ["Use the STAR method for behavioral questions"; "Include quantifiable results"]);
    ("rating", VStr rating)
  ].

(** ** Interview readiness ([src/interview_prep.py], lines 248-283) *)

(** [d.get(key, dflt)] *)
Definition dict_get (d : gmap string pyval) (key : string) (dflt : pyval) : pyval :=
  default dflt (d !! key).

(** [sum(...)]: the accumulator starts at 0 and the items are added from
    left to right; adding anything but a number raises [TypeError]. *)
Fixpoint py_sum_from (acc : Q) (items : list pyval) : result Q :=
  match items with
  | [] => Ok acc
  | VNum q :: items' => py_sum_from (acc + q) items'
  | _ :: _ => Raise TypeError
  end.

Definition py_sum (items : list pyval) : result Q := py_sum_from 0 items.

(** [eval_data.get('overall_score', 0) for eval_data in evaluations] *)
Definition overall_scores (evaluations : list (gmap string pyval)) : list pyval :=
  (λ eval_data, dict_get eval_data "overall_score" (VInt 0)) <$> evaluations.

(** Nearest integer, ties to the even one. *)
Definition round_half_even (x : Q) : Z :=
  let f := Qfloor x in
  match Qcompare (x - inject_Z f) (1 # 2) with
  | Lt => f
  | Gt => (f + 1)%Z
  | Eq => if Z.even f then f else (f + 1)%Z
  end.

(** [round(x, 1)] *)
Definition py_round1 (x : Q) : Q :=
  Qred (inject_Z (round_half_even (x * 10)) / 10).

(** The [if avg_score >= 90 / elif ... / else] ladder. *)
Definition readiness_bucket (avg_score : Q) : string * list string :=
  if Qle_bool 90 avg_score then
    ("Excellent", ["You're well-prepared! Focus on company-specific research"])
  else if Qle_bool 80 avg_score then
    ("Good", ["Strong preparation. Practice a few more questions"])
  else if Qle_bool 70 avg_score then
    ("Satisfactory", ["Good start. Focus on technical depth and examples"])
  else if Qle_bool 60 avg_score then
    ("Needs Improvement", ["Practice more. Focus on STAR method and technical details"])
  else
    ("Requires Significant Work", ["Intensive practice needed. Consider mock interviews"]).

Definition calculate_interview_readiness_score
    (evaluations : list (gmap string pyval)) : result (gmap string pyval) :=
  match evaluations with
  | [] =>
      Ok (list_to_map [
        ("overall_score", VInt 0);
        ("readiness_level", VStr "Not Started");
        ("recommendations", VList ["Start practicing interview questions"])
      ])
  | _ :: _ =>
      total_score ← py_sum (overall_scores evaluations);
      let avg_score := total_score / len evaluations in
      let '(readiness_level, recommendations) := readiness_bucket avg_score in
      Ok (list_to_map [
        ("overall_score", VNum (py_round1 avg_score));
        ("readiness_level", VStr readiness_level);
        ("recommendations", VList recommendations);
        ("total_questions", VNum (len evaluations))
      ])
  end.

(** *** Vocabulary of the specification *)

Inductive readiness_level :=
| Excellent | Good | Satisfactory | NeedsImprovement | RequiresWork | NotStarted.

(** The string the code stores under ["readiness_level"]. *)
Definition level_name (l : readiness_level) : string :=
  match l with
  | Excellent => "Excellent"
  | Good => "Good"
  | Satisfactory => "Satisfactory"
  | NeedsImprovement => "Needs Improvement"
  | RequiresWork => "Requires Significant Work"
  | NotStarted => "Not Started"
  end.

(** Arithmetic mean of a sequence of scores. *)
Definition mean (scores : list Q) : Q := foldr Qplus 0 scores / len scores.

(** An evaluation whose ["overall_score"] is the number [q]. *)
Definition has_score (eval_data : gmap string pyval) (q : Q) : Prop :=
  eval_data !! "overall_score" = Some (VNum q).

(** [assess(scores)]: the aggregator run on evaluations that carry just
    the given scores. *)
Definition assess (scores : list Q) : result (gmap string pyval) :=
  calculate_interview_readiness_score
    ((λ q, {["overall_score" := VNum q]}) <$> scores).

(** A text of [n] one-letter words, [w] and a space each, used to exercise
    the word-count ladder. *)
Fixpoint words (n : nat) : pystr :=
  match n with
  | O => []
  | S n' => 119%N :: 32%N :: words n'
  end.

(** The end of a word: the end of the text or a whitespace character. *)
Definition word_end (s : pystr) : Prop :=
  match s with
  | [] => True
  | c :: _ => py_isspace c = true
  end.

(** [has_words s n]: the text [s] is made of [n] words, runs of
    non-whitespace characters that end at a whitespace character or at the
    end of the text, with any whitespace before, between and after them. *)
Inductive has_words : pystr → nat → Prop :=
| has_words_nil : has_words [] 0
| has_words_space (c : N) (s : pystr) (n : nat) :
    py_isspace c = true → has_words s n → has_words (c :: s) n
| has_words_word (w s : pystr) (n : nat) :
    w ≠ [] → Forall (λ c, py_isspace c = false) w → word_end s →
    has_words s n → has_words (w ++ s) (S n).


(** The level a mean score falls into, by the thresholds of the
    specification. *)
Definition level_spec (m : Q) (l : readiness_level) : Prop :=
  (90 <= m → l = Excellent)
  ∧ (80 <= m ∧ m < 90 → l = Good)
  ∧ (70 <= m ∧ m < 80 → l = Satisfactory)
  ∧ (60 <= m ∧ m < 70 → l = NeedsImprovement)
  ∧ (m < 60 → l = RequiresWork).


(** ** Fallback interview questions ([src/interview_prep.py], lines 87-122) *)

(** [xs[:n]] for an integer [n]: a negative [n] counts from the end. *)
Definition py_slice_to {A : Type} (xs : list A) (n : Z) : list A :=
  if (n <? 0)%Z
  then take (Z.to_nat (Z.of_nat (length xs) + n)) xs
  else take (Z.to_nat n) xs.

(** [skills[0] if skills else 'programming'] *)
Definition first_skill (skills : list string) : string :=
  match skills with
  | [] => "programming"
  | skill :: _ => skill
  end.

Definition base_questions (skills : list string) : list (gmap string pyval) :=
  [ list_to_map [
      ("id", VInt 1);
      ("type", VStr "technical");
      ("category", VStr "Programming");
      ("difficulty", VStr "medium");
      ("question", VStr ("Can you walk me through your experience with "
                         +:+ first_skill skills +:+ "?"));
      ("follow_up", VStr "What was the most challenging project you worked on?");
      ("evaluation_criteria",
       VList ["Technical depth"; "Problem-solving approach"; "Communication"]);
      ("sample_answer_points",
       VList ["Specific examples"; "Technical details"; "Challenges overcome"])
    ];
    list_to_map [
      ("id", VInt 2);
      ("type", VStr "behavioral");
      ("category", VStr "Problem Solving");
      ("difficulty", VStr "medium");
      ("question", VStr "Tell me about a time when you had to learn a new technology quickly for a project.");
      ("follow_up", VStr "How did you ensure you were productive while learning?");
      ("evaluation_criteria",
       VList ["Learning agility"; "Resourcefulness"; "Impact on project"]);
      ("sample_answer_points",
       VList ["Learning strategy"; "Time management"; "Results achieved"])
    ];
    list_to_map [
      ("id", VInt 3);
      ("type", VStr "situational");
      ("category", VStr "Communication");
      ("difficulty", VStr "easy");
      ("question", VStr "How would you explain a complex technical concept to a non-technical stakeholder?");
      ("follow_up", VStr "Can you give me a specific example?");
      ("evaluation_criteria", VList ["Clarity"; "Adaptability"; "Patience"]);
      ("sample_answer_points",
       VList ["Simple analogies"; "Visual aids"; "Step-by-step approach"])
    ] ].

Definition _create_fallback_questions
    (resume_text job_description : string) (skills : list string)
    (question_count : Z) : list (gmap string pyval) :=
  py_slice_to (base_questions skills) question_count.

(** ** Question filters ([src/interview_prep.py], lines 285-291) *)

(** [v == s] for the result [v] of [d.get(key)] and a string [s]: only a
    string value can be equal to a string. *)
Definition py_eq_str (v : option pyval) (s : string) : bool :=
  match v with
  | Some (VStr s') => bool_decide (s' = s)
  | _ => false
  end.

Definition get_question_by_type
    (questions : list (gmap string pyval)) (question_type : string)
  : list (gmap string pyval) :=
  filter (λ q, py_eq_str (q !! "type") question_type = true) questions.


(** ** Talking to the language model ([src/interview_prep.py], lines 15-85
    and 124-187) *)

(** [re.search(r'\{.*\}', response, re.DOTALL)]: the match starts at the
    first opening brace and, [.*] being greedy and matching newlines too,
    runs to the last closing brace after it. *)
Fixpoint through_last_close (s : string) : option string :=
  match s with
  | EmptyString => None
  | String c s' =>
      match through_last_close s' with
      | Some t => Some (String c t)
      | None => if Ascii.eqb c "}" then Some (String c EmptyString) else None
      end
  end.

Fixpoint find_json_object (response : string) : option string :=
  match response with
  | EmptyString => None
  | String c s' =>
      if Ascii.eqb c "{"
      then String c <$> through_last_close s'
      else find_json_object s'
  end.

Definition KeyError (key : string) : py_exn :=
  PyExn "KeyError" ("'" +:+ key +:+ "'").

(** [d[key]] *)
Definition dict_item (d : gmap string pyval) (key : string) : result pyval :=
  match d !! key with
  | Some v => Ok v
  | None => Raise (KeyError key)
  end.

(** [', '.join(v)]: strings, lists of strings and dicts (their keys) can be
    joined, a number cannot. *)
Definition py_join (sep : string) (v : pyval) : result string :=
  match v with
  | VList l => Ok (String.concat sep l)
  | VStr s => Ok (String.concat sep ((λ c, String c EmptyString) <$> list_ascii_of_string s))
  | VDict d => Ok (String.concat sep (map_to_list d).*1)
  | VNum _ => Raise (PyExn "TypeError" "can only join an iterable")
  end.

(** The parts of the evaluation prompt that are read from the question, in
    the order in which the f-string evaluates them. *)
Definition evaluation_prompt_fields (question : gmap string pyval)
  : result (list pyval * string) :=
  q ← dict_item question "question";
  t ← dict_item question "type";
  c ← dict_item question "category";
  d ← dict_item question "difficulty";
  criteria ← dict_item question "evaluation_criteria";
  joined ← py_join ", " criteria;
  Ok ([q; t; c; d], joined).

Section LanguageModel.

(** Outcome of the health check [requests.get(.../api/tags)]: [true] when it
    answers with status 200, [false] otherwise or when it raises. *)
Variable available : bool.

(** Outcome of [call_local_llama(prompt, temperature=...)]. *)
Variable call_local_llama : result string.

(** [json.loads] on a text that starts with an opening brace. *)
Variable json_loads : string → result (gmap string pyval).

(** [json.loads(...)] read as the question document
    [{"questions": [...]}]. *)
Variable json_loads_questions :
  string → result (gmap string (list (gmap string pyval))).

Definition evaluation_warning (e : py_exn) : string :=
  "Error evaluating answer: " +:+ exn_text e.

Definition evaluate_answer
    (question : gmap string pyval) (user_answer : pystr) (resume_text : string)
  : list string * result (gmap string pyval) :=
  match evaluation_prompt_fields question with
  | Raise e => ([], Raise e)
  | Ok _ =>
      if negb available
      then ([], Ok (_create_fallback_evaluation question user_answer))
      else
        match call_local_llama with
        | Raise e =>
            ([evaluation_warning e],
             Ok (_create_fallback_evaluation question user_answer))
        | Ok response =>
            match find_json_object response with
            | Some json_str =>
                match json_loads json_str with
                | Ok evaluation => ([], Ok evaluation)
                | Raise e =>
                    ([evaluation_warning e],
                     Ok (_create_fallback_evaluation question user_answer))
                end
            | None => ([], Ok (_create_fallback_evaluation question user_answer))
            end
        end
  end.

Definition questions_warning (e : py_exn) : string :=
  "Error generating questions: " +:+ exn_text e.

Definition generate_interview_questions
    (resume_text job_description : string) (skills : list string)
    (question_count : Z) : list string * list (gmap string pyval) :=
  if negb available
  then ([], _create_fallback_questions resume_text job_description skills question_count)
  else
    match call_local_llama with
    | Raise e =>
        ([questions_warning e],
         _create_fallback_questions resume_text job_description skills question_count)
    | Ok response =>
        match find_json_object response with
        | Some json_str =>
            match json_loads_questions json_str with
            | Ok questions_data => ([], default [] (questions_data !! "questions"))
            | Raise e =>
                ([questions_warning e],
                 _create_fallback_questions resume_text job_description skills
                                            question_count)
            end
        | None =>
            ([], _create_fallback_questions resume_text job_description skills
                                            question_count)
        end
    end.

End LanguageModel.

(** The character [c] occurs in [s]. *)
Definition has_char (c : ascii) (s : string) : Prop :=
  In c (list_ascii_of_string s).

(** ** Prompt truncation ([src/local_llm.py], lines 75-78) *)

(** Two line feeds followed by [...[truncated]]. *)
Definition truncated_marker : pystr :=
  10%N :: 10%N :: py_str "...[truncated]".

(** [if not text: return ""]
    [return text if len(text) <= limit else text[:limit] + marker];
    [len] and the slice count code points. *)
Definition _truncate (text : pystr) (limit : Z) : pystr :=
  if bool_decide (text = []) then []
  else if (Z.of_nat (length text) <=? limit)%Z then text
  else py_slice_to text limit ++ truncated_marker.

(** ** Course tracker ([src/course_tracker.py])

    The tracker's [progress_data] is a Python dict: it keeps its keys in
    insertion order, so it is embedded as an association list whose keys
    are pairwise distinct.  [datetime.now().isoformat()] is an argument of
    the operations that read the clock; [_save_progress], which writes the
    dict to a file, does not change the dict and is left out. *)

Inductive CourseStatus :=
| NOT_STARTED | IN_PROGRESS | COMPLETED | PAUSED | DROPPED.

#[global] Instance CourseStatus_eq_dec : EqDecision CourseStatus.
Proof. solve_decision. Defined.

Record CourseProgress := {
  course_title : string;
  platform : string;
  url : string;
  status : CourseStatus;
  progress_percentage : Z;
  start_date : option string;
  completion_date : option string;
  notes : string;
  estimated_completion : option string;
  actual_hours_spent : Z;
  rating : option Z
}.

Definition set_status (c : CourseProgress) (v : CourseStatus) : CourseProgress :=
  {| course_title := course_title c; platform := platform c; url := url c;
     status := v; progress_percentage := progress_percentage c;
     start_date := start_date c; completion_date := completion_date c;
     notes := notes c; estimated_completion := estimated_completion c;
     actual_hours_spent := actual_hours_spent c; rating := rating c |}.

Definition set_progress_percentage (c : CourseProgress) (v : Z) : CourseProgress :=
  {| course_title := course_title c; platform := platform c; url := url c;
     status := status c; progress_percentage := v;
     start_date := start_date c; completion_date := completion_date c;
     notes := notes c; estimated_completion := estimated_completion c;
     actual_hours_spent := actual_hours_spent c; rating := rating c |}.

Definition set_start_date (c : CourseProgress) (v : option string) : CourseProgress :=
  {| course_title := course_title c; platform := platform c; url := url c;
     status := status c; progress_percentage := progress_percentage c;
     start_date := v; completion_date := completion_date c;
     notes := notes c; estimated_completion := estimated_completion c;
     actual_hours_spent := actual_hours_spent c; rating := rating c |}.

Definition set_completion_date (c : CourseProgress) (v : option string) : CourseProgress :=
  {| course_title := course_title c; platform := platform c; url := url c;
     status := status c; progress_percentage := progress_percentage c;
     start_date := start_date c; completion_date := v;
     notes := notes c; estimated_completion := estimated_completion c;
     actual_hours_spent := actual_hours_spent c; rating := rating c |}.

Definition set_notes (c : CourseProgress) (v : string) : CourseProgress :=
  {| course_title := course_title c; platform := platform c; url := url c;
     status := status c; progress_percentage := progress_percentage c;
     start_date := start_date c; completion_date := completion_date c;
     notes := v; estimated_completion := estimated_completion c;
     actual_hours_spent := actual_hours_spent c; rating := rating c |}.

Definition set_actual_hours_spent (c : CourseProgress) (v : Z) : CourseProgress :=
  {| course_title := course_title c; platform := platform c; url := url c;
     status := status c; progress_percentage := progress_percentage c;
     start_date := start_date c; completion_date := completion_date c;
     notes := notes c; estimated_completion := estimated_completion c;
     actual_hours_spent := v; rating := rating c |}.

Definition set_rating (c : CourseProgress) (v : option Z) : CourseProgress :=
  {| course_title := course_title c; platform := platform c; url := url c;
     status := status c; progress_percentage := progress_percentage c;
     start_date := start_date c; completion_date := completion_date c;
     notes := notes c; estimated_completion := estimated_completion c;
     actual_hours_spent := actual_hours_spent c; rating := v |}.

(** [d.get(k)] *)
Fixpoint alist_get {V : Type} (d : list (string * V)) (k : string) : option V :=
  match d with
  | [] => None
  | (k', v) :: d' => if decide (k' = k) then Some v else alist_get d' k
  end.

(** [d[k] = v]: an existing key keeps its place, a new one goes last. *)
Fixpoint alist_set {V : Type} (d : list (string * V)) (k : string) (v : V)
  : list (string * V) :=
  match d with
  | [] => [(k, v)]
  | (k', v') :: d' =>
      if decide (k' = k) then (k, v) :: d' else (k', v') :: alist_set d' k v
  end.

(** [del d[k]] *)
Fixpoint alist_del {V : Type} (d : list (string * V)) (k : string)
  : list (string * V) :=
  match d with
  | [] => []
  | (k', v') :: d' =>
      if decide (k' = k) then d' else (k', v') :: alist_del d' k
  end.

(** [s.replace(old, new)] for one-character [old] and [new]. *)
Fixpoint py_replace_char (old new : ascii) (s : string) : string :=
  match s with
  | EmptyString => EmptyString
  | String c s' =>
      String (if Ascii.eqb c old then new else c) (py_replace_char old new s')
  end.

(** [f"{platform}_{course_title}".replace(" ", "_").replace("/", "_")] *)
Definition _get_course_id (course_title platform : string) : string :=
  py_replace_char "/" "_"
    (py_replace_char " " "_" (platform +:+ "_" +:+ course_title)).

Definition new_course (course_title platform url : string) : CourseProgress :=
  {| course_title := course_title; platform := platform; url := url;
     status := NOT_STARTED; progress_percentage := 0;
     start_date := None; completion_date := None; notes := "";
     estimated_completion := None; actual_hours_spent := 0; rating := None |}.

Definition add_course (progress_data : list (string * CourseProgress))
    (course_title platform url : string)
  : string * list (string * CourseProgress) :=
  let course_id := _get_course_id course_title platform in
  match alist_get progress_data course_id with
  | None =>
      (course_id,
       alist_set progress_data course_id (new_course course_title platform url))
  | Some _ => (course_id, progress_data)
  end.

(** The [if status is not None] block; [now] is the clock reading. *)
Definition apply_status (now : string) (course : CourseProgress)
    (new_status : option CourseStatus) : CourseProgress :=
  match new_status with
  | None => course
  | Some st =>
      let course := set_status course st in
      if bool_decide (st = IN_PROGRESS) && bool_decide (start_date course = None)
      then set_start_date course (Some now)
      else if bool_decide (st = COMPLETED)
      then set_progress_percentage (set_completion_date course (Some now)) 100
      else course
  end.

(** The [if progress_percentage is not None] block. *)
Definition apply_percentage (now : string) (course : CourseProgress)
    (percentage : option Z) : CourseProgress :=
  match percentage with
  | None => course
  | Some p =>
      let course := set_progress_percentage course (Z.max 0 (Z.min 100 p)) in
      if bool_decide (progress_percentage course = 100%Z)
         && bool_decide (status course ≠ COMPLETED)
      then set_completion_date (set_status course COMPLETED) (Some now)
      else course
  end.

(** The course after the five optional updates, in the order of the code. *)
Definition updated_course (now_status now_percentage : string)
    (course : CourseProgress)
    (new_status : option CourseStatus) (percentage : option Z)
    (new_notes : option string) (hours : option Z) (new_rating : option Z)
  : CourseProgress :=
  let course := apply_status now_status course new_status in
  let course := apply_percentage now_percentage course percentage in
  let course := match new_notes with
                | Some n => set_notes course n
                | None => course
                end in
  let course := match hours with
                | Some h => set_actual_hours_spent course (Z.max 0 h)
                | None => course
                end in
  match new_rating with
  | Some r => set_rating course (Some (Z.max 1 (Z.min 5 r)))
  | None => course
  end.

Definition update_progress (progress_data : list (string * CourseProgress))
    (now_status now_percentage : string) (course_id : string)
    (new_status : option CourseStatus) (percentage : option Z)
    (new_notes : option string) (hours : option Z) (new_rating : option Z)
  : bool * list (string * CourseProgress) :=
  match alist_get progress_data course_id with
  | None => (false, progress_data)
  | Some course =>
      (true,
       alist_set progress_data course_id
         (updated_course now_status now_percentage course
                         new_status percentage new_notes hours new_rating))
  end.

Definition get_course_progress (progress_data : list (string * CourseProgress))
    (course_id : string) : option CourseProgress :=
  alist_get progress_data course_id.

Definition get_courses_by_status (progress_data : list (string * CourseProgress))
    (st : CourseStatus) : list CourseProgress :=
  filter (λ course, status course = st) progress_data.*2.

Definition delete_course (progress_data : list (string * CourseProgress))
    (course_id : string) : bool * list (string * CourseProgress) :=
  match alist_get progress_data course_id with
  | Some _ => (true, alist_del progress_data course_id)
  | None => (false, progress_data)
  end.

(** [platform_counts[p] = platform_counts.get(p, 0) + 1] over the courses. *)
Definition _get_platform_breakdown (progress_data : list (string * CourseProgress))
  : list (string * Z) :=
  foldl (λ platform_counts course,
           alist_set platform_counts (platform course)
                     (default 0%Z (alist_get platform_counts (platform course)) + 1)%Z)
        [] progress_data.*2.

(** The operations that change a tracker, with their arguments. *)
Inductive tracker_op :=
| OpAdd (course_title platform url : string)
| OpUpdate (now_status now_percentage course_id : string)
           (new_status : option CourseStatus) (percentage : option Z)
           (new_notes : option string) (hours : option Z) (new_rating : option Z)
| OpDelete (course_id : string).

Definition run_op (progress_data : list (string * CourseProgress)) (op : tracker_op)
  : list (string * CourseProgress) :=
  match op with
  | OpAdd t p u => (add_course progress_data t p u).2
  | OpUpdate n1 n2 id st pc nt h r =>
      (update_progress progress_data n1 n2 id st pc nt h r).2
  | OpDelete id => (delete_course progress_data id).2
  end.

(** What the tracker keeps true of every course. *)
Definition course_ok (course : CourseProgress) : Prop :=
  (0 ≤ progress_percentage course ≤ 100)%Z
  ∧ (0 ≤ actual_hours_spent course)%Z
  ∧ match rating course with
    | Some r => (1 ≤ r ≤ 5)%Z
    | None => True
    end
  ∧ (status course = COMPLETED → is_Some (completion_date course)).

Definition tracker_ok (progress_data : list (string * CourseProgress)) : Prop :=
  NoDup progress_data.*1 ∧ Forall course_ok progress_data.*2.

(** ** Progress tracker ([src/progress_tracker.py])

    A clock reading [datetime.now()] is a day number and a time within the
    day.  The dict stores readings as ISO strings and reads them back with
    [fromisoformat]; the embedding stores the reading itself.  The dict
    [progress_data] has the entries that [load_progress] creates: numbers,
    strings, [None], clock readings and the lists of achievements and
    goals.  [save_progress] writes the dict to a file inside a
    [try/except] and does not change it; it is left out. *)

Record datetime := { dt_day : Z; dt_time : Z }.

Record achievement := {
  ach_id : string;
  ach_name : string;
  ach_description : string;
  earned_at : datetime;
  ach_icon : string
}.

Inductive tracker_value :=
| TInt (n : Z)
| TStr (s : string)
| TNone
| TTime (t : datetime)
| TAchievements (l : list achievement)
| TGoals (l : list (gmap string pyval)).

Definition ValueError : py_exn :=
  PyExn "ValueError" "Invalid isoformat string".

(** [d[key] += value] *)
Definition dict_add (d : gmap string tracker_value) (key : string) (value : Z)
  : result (gmap string tracker_value) :=
  match d !! key with
  | None => Raise (KeyError key)
  | Some (TInt n) => Ok (<[key := TInt (n + value)]> d)
  | Some _ => Raise TypeError
  end.

(** [_update_streak]; [today] is the day of the clock reading it takes. *)
Definition _update_streak (d : gmap string tracker_value) (today : Z)
  : result (gmap string tracker_value) :=
  match d !! "last_activity" with
  | Some (TTime last_activity) =>
      if bool_decide (today = dt_day last_activity) then Ok d
      else if bool_decide ((today - dt_day last_activity)%Z = 1%Z)
      then dict_add d "streak_days" 1
      else Ok (<["streak_days" := TInt 1]> d)
  | Some (TStr s) =>
      if bool_decide (s = EmptyString)
      then Ok (<["streak_days" := TInt 1]> d)
      else Raise ValueError
  | Some (TInt n) =>
      if bool_decide (n = 0%Z)
      then Ok (<["streak_days" := TInt 1]> d)
      else Raise TypeError
  | Some (TAchievements l) =>
      if bool_decide (l = [])
      then Ok (<["streak_days" := TInt 1]> d)
      else Raise TypeError
  | Some (TGoals l) =>
      if bool_decide (l = [])
      then Ok (<["streak_days" := TInt 1]> d)
      else Raise TypeError
  | Some TNone | None => Ok (<["streak_days" := TInt 1]> d)
  end.

(** An available achievement: id, name, description, the entry its
    condition reads, the threshold, and the icon. *)
Record available_achievement := {
  av_id : string;
  av_name : string;
  av_description : string;
  av_key : string;
  av_threshold : Z;
  av_icon : string
}.

Definition _get_available_achievements : list available_achievement :=
  [ Build_available_achievement "first_session" "Getting Started"
      "Completed your first session" "total_sessions" 1 "🎉";
    Build_available_achievement "skill_assessor" "Skill Assessor"
      "Completed 5 skill assessments" "skills_assessed" 5 "📊";
    Build_available_achievement "resume_master" "Resume Master"
      "Analyzed 3 resumes" "resumes_analyzed" 3 "📝";
    Build_available_achievement "interview_practitioner" "Interview Practitioner"
      "Practiced 10 interview questions" "interviews_practiced" 10 "🎯";
    Build_available_achievement "course_learner" "Course Learner"
      "Started 5 courses" "courses_started" 5 "📚";
    Build_available_achievement "course_graduate" "Course Graduate"
      "Completed 3 courses" "courses_completed" 3 "🎓";
    Build_available_achievement "career_explorer" "Career Explorer"
      "Explored 5 different career paths" "career_paths_explored" 5 "🗺️";
    Build_available_achievement "learning_enthusiast" "Learning Enthusiast"
      "Spent 50 hours learning" "learning_hours" 50 "⏰";
    Build_available_achievement "streak_master" "Streak Master"
      "Maintained a 7-day streak" "streak_days" 7 "🔥";
    Build_available_achievement "dedicated_learner" "Dedicated Learner"
      "Maintained a 30-day streak" "streak_days" 30 "💎" ].

(** [_check_achievement_condition]: the condition, [False] when evaluating
    it raises. *)
Definition _check_achievement_condition
    (d : gmap string tracker_value) (a : available_achievement) : bool :=
  match d !! av_key a with
  | Some (TInt n) => bool_decide (av_threshold a ≤ n)%Z
  | _ => false
  end.

(** One round of the loop of [_check_achievements] on the list of earned
    achievements; [now_award] is the clock reading taken when the
    achievement with the given id is awarded. *)
Definition award (d : gmap string tracker_value) (now_award : string → datetime)
    (earned : list achievement) (a : available_achievement) : list achievement :=
  if bool_decide (av_id a ∉ ach_id <$> earned) && _check_achievement_condition d a
  then earned ++ [ {| ach_id := av_id a; ach_name := av_name a;
                      ach_description := av_description a;
                      earned_at := now_award (av_id a);
                      ach_icon := av_icon a |} ]
  else earned.

Definition _check_achievements (d : gmap string tracker_value)
    (now_award : string → datetime) : result (gmap string tracker_value) :=
  match d !! "achievements" with
  | None => Raise (KeyError "achievements")
  | Some (TAchievements earned) =>
      Ok (<["achievements" :=
              TAchievements (foldl (award d now_award) earned
                                   _get_available_achievements)]> d)
  | Some _ => Raise TypeError
  end.

(** [update_activity(activity_type, value)]; [now] is the clock reading
    stored as last activity, [today] the day of the reading that
    [_update_streak] takes after it. *)
Definition update_activity (d : gmap string tracker_value)
    (activity_type : string) (value : Z)
    (now : datetime) (today : Z) (now_award : string → datetime)
  : result (gmap string tracker_value) :=
  d ← (if bool_decide (is_Some (d !! activity_type))
       then dict_add d activity_type value else Ok d);
  let d := <["last_activity" := TTime now]> d in
  d ← dict_add d "total_sessions" 1;
  d ← _update_streak d today;
  _check_achievements d now_award.

(** The dict that [load_progress] creates when there is no file. *)
Definition fresh_progress (created_at : datetime) : gmap string tracker_value :=
  list_to_map [
    ("user_id", TStr "default_user");
    ("created_at", TTime created_at);
    ("total_sessions", TInt 0);
    ("skills_assessed", TInt 0);
    ("resumes_analyzed", TInt 0);
    ("interviews_practiced", TInt 0);
    ("courses_started", TInt 0);
    ("courses_completed", TInt 0);
    ("career_paths_explored", TInt 0);
    ("learning_hours", TInt 0);
    ("achievements", TAchievements []);
    ("weekly_goals", TGoals []);
    ("monthly_goals", TGoals []);
    ("streak_days", TInt 0);
    ("last_activity", TNone)
  ].

(** * Properties *)

(** ** Numbers *)

Lemma len_nonneg {A : Type} (xs : list A) : 0 <= len xs.
Proof.
  unfold len. change 0 with (inject_Z 0). rewrite <- Zle_Qle. lia.
Qed.

Lemma len_pos {A : Type} (xs : list A) : xs ≠ [] → 0 < len xs.
Proof.
  intros Hne. unfold len. change 0 with (inject_Z 0). rewrite <- Zlt_Qlt.
  destruct xs as [|x xs]; [done|]. simpl length. lia.
Qed.

Lemma truthy_true {A : Type} (xs : list A) : truthy xs = true ↔ xs ≠ [].
Proof. destruct xs; simpl; split; done. Qed.

(** A ratio of counts [m <= n], scaled to a percentage. *)
Lemma percentage_bounds (m n : nat) :
  (m ≤ n)%nat → (0 < n)%nat →
  let p := inject_Z (Z.of_nat m) / inject_Z (Z.of_nat n) * 100 in
  0 <= p ∧ p <= 100 ∧ (p == 100 ↔ m = n).
Proof.
  intros Hmn Hn p.
  assert (Hn' : 0 < inject_Z (Z.of_nat n)).
  { change 0 with (inject_Z 0). rewrite <- Zlt_Qlt. lia. }
  assert (Hm' : 0 <= inject_Z (Z.of_nat m)).
  { change 0 with (inject_Z 0). rewrite <- Zle_Qle. lia. }
  assert (Hle : inject_Z (Z.of_nat m) <= inject_Z (Z.of_nat n)).
  { rewrite <- Zle_Qle. lia. }
  assert (Hp : p * inject_Z (Z.of_nat n) == 100 * inject_Z (Z.of_nat m)).
  { unfold p. field. lra. }
  clearbody p.
  split; [nra|]. split; [nra|]. split.
  - intros H100.
    assert (Heq : inject_Z (Z.of_nat n) == inject_Z (Z.of_nat m)) by nra.
    apply (proj1 (inject_Z_injective _ _)) in Heq. lia.
  - intros ->. nra.
Qed.

(** ** Skill match analysis *)


Lemma py_set_size (skills : list string) :
  NoDup skills → size (py_set skills) = length skills.
Proof. intros Hnd. unfold py_set. by apply size_list_to_set. Qed.

Lemma matched_size_le (resume_skills jd_skills : list string) :
  (size (matched_skills resume_skills jd_skills) ≤ size (py_set jd_skills))%nat.
Proof. apply subseteq_size. unfold matched_skills. set_solver. Qed.

Lemma matched_size_full (resume_skills jd_skills : list string) :
  size (matched_skills resume_skills jd_skills) = size (py_set jd_skills)
  ↔ py_set jd_skills ⊆ py_set resume_skills.
Proof.
  unfold matched_skills. split.
  - intros Hsz.
    assert (Heq : py_set resume_skills ∩ py_set jd_skills = py_set jd_skills).
    { apply set_subseteq_size_eq; [set_solver|lia]. }
    set_solver.
  - intros Hsub. f_equal. set_solver.
Qed.

(** C1: for all skill collections A (resume) and B (job), [matched] is the
    intersection of the two sets, [missing] is B minus A and [extra] is A
    minus B; element-wise, a skill is matched iff it occurs in both
    collections, missing iff it occurs only in the job's, extra iff it
    occurs only in the resume's. *)
Theorem match_partitions (resume_skills jd_skills : list string) :
  let A : gset string := list_to_set resume_skills in
  let B : gset string := list_to_set jd_skills in
  (matched_skills resume_skills jd_skills = A ∩ B
   ∧ missing_skills resume_skills jd_skills = B ∖ A
   ∧ extra_skills resume_skills jd_skills = A ∖ B)
  ∧ (∀ s, s ∈ matched_skills resume_skills jd_skills
          ↔ s ∈ resume_skills ∧ s ∈ jd_skills)
  ∧ (∀ s, s ∈ missing_skills resume_skills jd_skills
          ↔ s ∈ jd_skills ∧ s ∉ resume_skills)
  ∧ (∀ s, s ∈ extra_skills resume_skills jd_skills
          ↔ s ∈ resume_skills ∧ s ∉ jd_skills).
Proof.
  intros A B. unfold matched_skills, missing_skills, extra_skills, py_set.
  split; [done|].
  repeat split; intros; set_solver.
Qed.

(** The invariant of the data model: matched and missing partition the job's
    skills, matched and extra partition the resume's. *)
Lemma match_partition_invariant (resume_skills jd_skills : list string) :
  matched_skills resume_skills jd_skills ∪ missing_skills resume_skills jd_skills
    = py_set jd_skills
  ∧ matched_skills resume_skills jd_skills ∪ extra_skills resume_skills jd_skills
    = py_set resume_skills
  ∧ matched_skills resume_skills jd_skills ## missing_skills resume_skills jd_skills
  ∧ matched_skills resume_skills jd_skills ## extra_skills resume_skills jd_skills.
Proof.
  unfold matched_skills, missing_skills, extra_skills.
  repeat split; try set_solver.
  - apply set_eq. intros s. rewrite elem_of_union, elem_of_intersection, elem_of_difference.
    destruct (decide (s ∈ py_set resume_skills)); naive_solver.
  - apply set_eq. intros s. rewrite elem_of_union, elem_of_intersection, elem_of_difference.
    destruct (decide (s ∈ py_set jd_skills)); naive_solver.
Qed.

(** The score in terms of the length of the job's skill collection. *)
Lemma match_score_nonempty (resume_skills jd_skills : list string) :
  jd_skills ≠ [] →
  match_score resume_skills jd_skills
  == 100 * set_len (matched_skills resume_skills jd_skills) / len jd_skills.
Proof.
  intros Hne. unfold match_score.
  pose proof (len_pos jd_skills Hne) as Hpos.
  apply truthy_true in Hne as ->.
  field. lra.
Qed.



(** C7: for a resume skill set A and a nonempty job skill set B the score
    lies in [0, 100], and it is 100 exactly when B is a subset of A. *)
Theorem match_score_range (resume_skills jd_skills : list string) :
  NoDup jd_skills → jd_skills ≠ [] →
  0 <= match_score resume_skills jd_skills
  ∧ match_score resume_skills jd_skills <= 100
  ∧ (match_score resume_skills jd_skills == 100
     ↔ py_set jd_skills ⊆ py_set resume_skills).
Proof.
  intros Hnd Hne.
  pose proof (matched_size_le resume_skills jd_skills) as Hle.
  pose proof (matched_size_full resume_skills jd_skills) as Hfull.
  rewrite (py_set_size _ Hnd) in Hle, Hfull.
  assert (Hpos : (0 < length jd_skills)%nat).
  { destruct jd_skills; [done|]. simpl. lia. }
  destruct (percentage_bounds _ _ Hle Hpos) as (H0 & H100 & Heq).
  unfold match_score. apply truthy_true in Hne as ->.
  unfold set_len, len.
  split; [exact H0|]. split; [exact H100|].
  rewrite Heq. exact Hfull.
Qed.

Lemma match_score_range_witness :
  0 <= match_score ["python"; "sql"] ["python"; "docker"; "aws"]
  ∧ match_score ["python"; "sql"] ["python"; "docker"; "aws"] <= 100
  ∧ (match_score ["python"; "sql"] ["python"; "docker"; "aws"] == 100
     ↔ py_set ["python"; "docker"; "aws"] ⊆ py_set ["python"; "sql"]).
Proof.
  apply (match_score_range ["python"; "sql"] ["python"; "docker"; "aws"]).
  - apply (bool_decide_unpack _). vm_compute. exact I.
  - discriminate.
Defined.

(** Duplicates in the job's collection lower the score: the hypothesis that
    the collection is a set is needed. *)
Example match_score_duplicates :
  match_score ["python"] ["python"; "python"] == 50.
Proof. vm_compute. reflexivity. Qed.

(** The guard in front of the analysis: with an empty job skill list no
    score is computed at all. *)
Lemma skill_match_analysis_guard (resume_text jd_text : string)
    (resume_skills : list string) :
  skill_match_analysis resume_text jd_text resume_skills [] = None.
Proof.
  unfold skill_match_analysis.
  by rewrite andb_false_r.
Qed.

(** ** Summation *)




Lemma py_sum_from_nums (scores : list Q) (acc : Q) :
  ∃ t, py_sum_from acc (VNum <$> scores) = Ok t ∧ t == acc + foldr Qplus 0 scores.
Proof.
  revert acc. induction scores as [|q scores IH]; intros acc; simpl.
  - exists acc. split; [done|ring].
  - destruct (IH (acc + q)) as (t & Ht & Heq).
    exists t. split; [done|]. rewrite Heq. ring.
Qed.

(** ** Rounding *)



Lemma round_half_even_close (x : Q) :
  Qabs (inject_Z (round_half_even x) - x) <= 1 # 2.
Proof.
  pose proof (Qfloor_le x) as Hlo.
  pose proof (Qlt_floor x) as Hhi.
  rewrite inject_Z_plus in Hhi. change (inject_Z 1) with 1 in Hhi.
  apply Qabs_Qle_condition.
  unfold round_half_even.
  destruct (Qcompare (x - inject_Z (Qfloor x)) (1 # 2)) eqn:Hcmp.
  - apply Qeq_alt in Hcmp.
    destruct (Z.even (Qfloor x)).
    + lra.
    + rewrite inject_Z_plus. change (inject_Z 1) with 1. lra.
  - apply Qlt_alt in Hcmp. lra.
  - apply Qgt_alt in Hcmp.
    rewrite inject_Z_plus. change (inject_Z 1) with 1. lra.
Qed.


(** ** The level ladder *)



Lemma Qle_bool_false (t x : Q) : Qle_bool t x = false ↔ x < t.
Proof.
  rewrite <- not_true_iff_false, Qle_bool_iff. split.
  - apply Qnot_le_lt.
  - intros Hlt Hle. apply (Qlt_irrefl x). eapply Qlt_le_trans; eauto.
Qed.

Lemma readiness_bucket_level (avg_score : Q) :
  ∃ l, (readiness_bucket avg_score).1 = level_name l ∧ level_spec avg_score l.
Proof.
  unfold readiness_bucket, level_spec.
  destruct (Qle_bool 90 avg_score) eqn:H90;
    [|destruct (Qle_bool 80 avg_score) eqn:H80;
      [|destruct (Qle_bool 70 avg_score) eqn:H70;
        [|destruct (Qle_bool 60 avg_score) eqn:H60]]];
    repeat match goal with
    | H : Qle_bool _ _ = true |- _ => apply Qle_bool_iff in H
    | H : Qle_bool _ _ = false |- _ => apply Qle_bool_false in H
    end.
  - exists Excellent. repeat split; try done; intros; lra.
  - exists Good. repeat split; try done; intros; lra.
  - exists Satisfactory. repeat split; try done; intros; lra.
  - exists NeedsImprovement. repeat split; try done; intros; lra.
  - exists RequiresWork. repeat split; try done; intros; lra.
Qed.

(** ** Interview readiness *)

Lemma len_app_cons {A : Type} (xs ys : list A) (x : A) :
  len (xs ++ x :: ys) == len (xs ++ ys) + 1.
Proof.
  unfold len. rewrite !length_app. simpl length.
  rewrite <- (inject_Z_plus _ 1). apply inject_Z_injective. lia.
Qed.



(** The result on a non-empty list, once the scores have been summed. *)
Lemma readiness_nonempty (evaluations : list (gmap string pyval)) (total_score : Q) :
  evaluations ≠ [] →
  py_sum (overall_scores evaluations) = Ok total_score →
  let avg_score := total_score / len evaluations in
  ∃ d, calculate_interview_readiness_score evaluations = Ok d
    ∧ d !! "overall_score" = Some (VNum (py_round1 avg_score))
    ∧ d !! "readiness_level" = Some (VStr (readiness_bucket avg_score).1)
    ∧ d !! "recommendations" = Some (VList (readiness_bucket avg_score).2)
    ∧ d !! "total_questions" = Some (VNum (len evaluations)).
Proof.
  intros Hne Hsum avg_score.
  destruct evaluations as [|eval_data evaluations]; [done|].
  unfold calculate_interview_readiness_score. rewrite Hsum.
  change (mbind ?k (Ok ?t)) with (k t). cbv beta.
  fold avg_score. destruct (readiness_bucket avg_score) as [level recs].
  eexists. split; [reflexivity|]. by repeat split.
Qed.

(** Summing raises exactly when the same scores in another order do. *)
Lemma readiness_error (evaluations : list (gmap string pyval)) (e : py_exn) :
  evaluations ≠ [] →
  py_sum (overall_scores evaluations) = Raise e →
  calculate_interview_readiness_score evaluations = Raise e.
Proof.
  intros Hne Hsum.
  destruct evaluations as [|eval_data evaluations]; [done|].
  unfold calculate_interview_readiness_score. by rewrite Hsum.
Qed.

Lemma overall_scores_of_scores
    (evaluations : list (gmap string pyval)) (scores : list Q) :
  Forall2 has_score evaluations scores →
  overall_scores evaluations = VNum <$> scores.
Proof.
  induction 1 as [|eval_data q evaluations scores Hscore _ IH]; [done|].
  unfold overall_scores in *. rewrite !fmap_cons, IH. f_equal.
  unfold dict_get. by rewrite Hscore.
Qed.



(** Scenarios of the specification. *)
Example assess_all_100 :
  (λ d, (d !! "overall_score", d !! "readiness_level")) <$> assess [100; 100; 100]
  = Ok (Some (VNum 100), Some (VStr "Excellent")).
Proof. vm_compute. reflexivity. Qed.

Example assess_40_to_60 :
  (λ d, (d !! "overall_score", d !! "readiness_level"))
    <$> assess [40; 45; 50; 55; 60]
  = Ok (Some (VNum 50), Some (VStr "Requires Significant Work")).
Proof. vm_compute. reflexivity. Qed.

(** C4: on the empty sequence the result has overall score 0, level
    Not Started and the single recommendation to start practicing; the
    dict has no ["total_questions"] entry, unlike the result for a
    non-empty sequence. *)
Theorem readiness_empty :
  ∃ d, calculate_interview_readiness_score [] = Ok d
    ∧ d !! "overall_score" = Some (VNum 0)
    ∧ d !! "readiness_level" = Some (VStr (level_name NotStarted))
    ∧ d !! "recommendations" = Some (VList ["Start practicing interview questions"])
    ∧ d !! "total_questions" = None
    ∧ dom d = {["overall_score"; "readiness_level"; "recommendations"]}.
Proof.
  eexists. split; [reflexivity|].
  repeat split.
Qed.

(** The sibling path: every non-empty sequence that sums reports its length
    under ["total_questions"]. *)
Lemma readiness_total_questions (evaluations : list (gmap string pyval)) d :
  evaluations ≠ [] →
  calculate_interview_readiness_score evaluations = Ok d →
  d !! "total_questions" = Some (VNum (len evaluations)).
Proof.
  intros Hne Hd.
  destruct (py_sum (overall_scores evaluations)) as [total|e] eqn:Hsum.
  - destruct (readiness_nonempty _ _ Hne Hsum) as (d' & Hd' & _ & _ & _ & Hn).
    congruence.
  - rewrite (readiness_error _ _ Hne Hsum) in Hd. discriminate.
Qed.







(** With no score anywhere the mean is 0. *)
Example readiness_all_missing :
  (λ d, (d !! "overall_score", d !! "readiness_level", d !! "total_questions"))
    <$> calculate_interview_readiness_score [∅; ∅]
  = Ok (Some (VNum 0), Some (VStr "Requires Significant Work"), Some (VNum 2)).
Proof. vm_compute. reflexivity. Qed.

(** A score that is not a number makes the sum raise. *)
Example readiness_string_score :
  calculate_interview_readiness_score [{["overall_score" := VStr "85"]}]
  = Raise TypeError.
Proof. reflexivity. Qed.

(** ** Fallback answer evaluation *)

Lemma word_count_words (n : nat) : word_count (words n) = n.
Proof.
  unfold word_count, py_split. induction n as [|n IH]; [done|].
  change (py_split_from [] (words (S n)))
    with ([119%N] :: py_split_from [] (words n)).
  simpl length. by rewrite IH.
Qed.

(** *** The split against the words of a text *)

Lemma py_split_from_space (c : N) (s : pystr) :
  py_isspace c = true → py_split_from [] (c :: s) = py_split_from [] s.
Proof. intros Hc. simpl. by rewrite Hc. Qed.

Lemma py_split_from_word (w word s : pystr) :
  Forall (λ c, py_isspace c = false) w →
  py_split_from word (w ++ s) = py_split_from (rev w ++ word) s.
Proof.
  intros Hw. revert word. induction Hw as [|c w Hc _ IH]; intros word; [done|].
  simpl. rewrite Hc, IH. by rewrite <- app_assoc.
Qed.

Lemma py_split_from_word_end (word s : pystr) :
  word ≠ [] → word_end s →
  py_split_from word s = rev word :: py_split_from [] s.
Proof.
  intros Hne Hend. destruct s as [|c s]; simpl in *.
  - by destruct word.
  - rewrite Hend. by destruct word.
Qed.

Lemma has_words_word_count (s : pystr) (n : nat) :
  has_words s n → word_count s = n.
Proof.
  unfold word_count, py_split.
  induction 1 as [|c s n Hc _ IH|w s n Hne Hw Hend _ IH]; [done| |].
  - by rewrite py_split_from_space.
  - rewrite py_split_from_word, app_nil_r by done.
    rewrite py_split_from_word_end; [|by destruct w using rev_ind; [|rewrite rev_app_distr]|done].
    simpl. by rewrite IH.
Qed.

Lemma has_words_split_from (word s : pystr) :
  Forall (λ c, py_isspace c = false) word →
  has_words (rev word ++ s) (length (py_split_from word s)).
Proof.
  revert word. induction s as [|c s IH]; intros word Hword.
  - rewrite app_nil_r. destruct word as [|x word]; [constructor|].
    rewrite <- (app_nil_r (rev (x :: word))).
    apply has_words_word; [|by apply Forall_rev|done|constructor].
    simpl. by destruct (rev word).
  - simpl py_split_from. destruct (py_isspace c) eqn:Hc.
    + assert (Hs : has_words (c :: s) (length (py_split_from [] s))).
      { apply has_words_space; [done|]. by apply (IH []). }
      destruct word as [|x word]; [done|].
      apply has_words_word; [|by apply Forall_rev|done|done].
      simpl. by destruct (rev word).
    + replace (rev word ++ c :: s) with (rev (c :: word) ++ s)
        by (simpl; by rewrite <- app_assoc).
      apply IH. by constructor.
Qed.

(** Every text has exactly as many words as the split returns. *)
Lemma has_words_iff (s : pystr) (n : nat) :
  has_words s n ↔ word_count s = n.
Proof.
  split; [apply has_words_word_count|].
  intros <-. apply (has_words_split_from [] s). constructor.
Qed.

Lemma fallback_lookup_overall_score
    (question : gmap string pyval) (user_answer : pystr) :
  _create_fallback_evaluation question user_answer !! "overall_score"
  = Some (VInt (fallback_score_rating (word_count user_answer)).1).
Proof.
  unfold _create_fallback_evaluation.
  by destruct (fallback_score_rating (word_count user_answer)).
Qed.

Lemma fallback_score_ladder (n : nat) :
  let score := (fallback_score_rating n).1 in
  ((100 < n)%nat → score = 85%Z)
  ∧ ((50 < n ≤ 100)%nat → score = 70%Z)
  ∧ ((n ≤ 50)%nat → score = 55%Z)
  ∧ (score = 55 ∨ score = 70 ∨ score = 85)%Z.
Proof.
  unfold fallback_score_rating.
  destruct (Nat.ltb_spec 100 n); [|destruct (Nat.ltb_spec 50 n)]; simpl;
    repeat split; intros; try lia; auto.
Qed.

Lemma fallback_score_monotone (m n : nat) :
  (m ≤ n)%nat →
  ((fallback_score_rating m).1 ≤ (fallback_score_rating n).1)%Z.
Proof.
  intros Hmn. unfold fallback_score_rating.
  destruct (Nat.ltb_spec 100 m), (Nat.ltb_spec 100 n),
           (Nat.ltb_spec 50 m), (Nat.ltb_spec 50 n); simpl; lia.
Qed.

(** C10: every answer is made of a definite number [n] of
    whitespace-separated words, and the fallback evaluation's overall score
    is a function of [n] alone: 85 above 100 words, 70 above 50, 55
    otherwise; it is one of 55, 70, 85, lies in [0, 100], is the same for
    any question and any answer with as many words, and does not decrease
    when the number of words grows. *)
Theorem fallback_overall_score
    (question : gmap string pyval) (user_answer : pystr) :
  ∃ (n : nat) (score : Z),
    has_words user_answer n
    ∧ (∀ n', has_words user_answer n' → n' = n)
    ∧ _create_fallback_evaluation question user_answer !! "overall_score"
      = Some (VInt score)
    ∧ ((100 < n)%nat → score = 85%Z)
    ∧ ((50 < n ≤ 100)%nat → score = 70%Z)
    ∧ ((n ≤ 50)%nat → score = 55%Z)
    ∧ (score = 55 ∨ score = 70 ∨ score = 85)%Z
    ∧ (0 ≤ score ≤ 100)%Z
    ∧ (∀ question' user_answer' n' score',
         has_words user_answer' n' →
         _create_fallback_evaluation question' user_answer' !! "overall_score"
         = Some (VInt score') →
         (n' = n → score' = score)
         ∧ ((n ≤ n')%nat → (score ≤ score')%Z)).
Proof.
  exists (word_count user_answer), (fallback_score_rating (word_count user_answer)).1.
  destruct (fallback_score_ladder (word_count user_answer))
    as (Hhigh & Hmid & Hlow & Hrange).
  split; [by apply has_words_iff|].
  split; [intros n' Hn'; symmetry; by apply has_words_iff|].
  split; [apply fallback_lookup_overall_score|].
  split; [exact Hhigh|]. split; [exact Hmid|]. split; [exact Hlow|].
  split; [exact Hrange|]. split; [lia|].
  intros question' user_answer' n' score' Hwords Hlookup.
  apply has_words_iff in Hwords as <-.
  rewrite fallback_lookup_overall_score in Hlookup.
  injection Hlookup as <-.
  split.
  - by intros ->.
  - apply fallback_score_monotone.
Qed.

Lemma fallback_overall_score_witness :
  ∃ (n : nat) (score : Z),
    has_words (words 101) n
    ∧ _create_fallback_evaluation ∅ (words 101) !! "overall_score" = Some (VInt score)
    ∧ n = 101%nat ∧ score = 85%Z.
Proof.
  destruct (fallback_overall_score ∅ (words 101))
    as (n & score & Hwords & _ & Hlookup & Hhigh & _).
  exists n, score. split; [exact Hwords|]. split; [exact Hlookup|].
  assert (Hn : n = 101%nat).
  { apply has_words_iff in Hwords as <-. apply word_count_words. }
  split; [exact Hn|]. apply Hhigh. rewrite Hn. lia.
Defined.

(** Every branch of the ladder is taken by some answer. *)
Example fallback_scores_reached :
  _create_fallback_evaluation ∅ (words 101) !! "overall_score" = Some (VInt 85)
  ∧ _create_fallback_evaluation ∅ (words 100) !! "overall_score" = Some (VInt 70)
  ∧ _create_fallback_evaluation ∅ (words 51) !! "overall_score" = Some (VInt 70)
  ∧ _create_fallback_evaluation ∅ (words 50) !! "overall_score" = Some (VInt 55)
  ∧ _create_fallback_evaluation ∅ [] !! "overall_score" = Some (VInt 55).
Proof. repeat split; vm_compute; reflexivity. Qed.

(** The score follows the number of words, not the number of characters. *)
Example fallback_score_not_by_characters :
  (length (words 101) < length (py_str "supercalifragilisticexpialidocious-supercalifragilisticexpialidocious-supercalifragilisticexpialidocious-supercalifragilisticexpialidocious-supercalifragilisticexpialidocious-supercalifragilisticexpialidocious"))%nat
  ∧ _create_fallback_evaluation ∅ (py_str "supercalifragilisticexpialidocious-supercalifragilisticexpialidocious-supercalifragilisticexpialidocious-supercalifragilisticexpialidocious-supercalifragilisticexpialidocious-supercalifragilisticexpialidocious") !! "overall_score"
    = Some (VInt 55).
Proof. split; [vm_compute; lia|vm_compute; reflexivity]. Qed.

Example py_split_example :
  py_split (py_str "  Use the STAR	method
 here ")
  = py_str <$> ["Use"; "the"; "STAR"; "method"; "here"].
Proof. reflexivity. Qed.

(** Characters are code points: an accented letter (U+00E0) is part of its
    word, an em space (U+2003) or an ideographic space (U+3000) separates
    words like any other whitespace, and a zero-width space (U+200B) does
    not. *)
Example word_count_code_points :
  word_count [118; 111; 105; 108; 224; 33]%N = 1%nat
  ∧ word_count [97; 8195; 98]%N = 2%nat
  ∧ word_count [26085; 26412; 12288; 35486]%N = 2%nat
  ∧ word_count [97; 8203; 98]%N = 1%nat.
Proof. repeat split. Qed.

(** ** Skill extraction *)

Section SkillExtractionFacts.

Variable extract_skills : string → result (list string).
Variable extract_skills_ner : string → result (list string).

(** C6: provided the lexicon strategy itself returns, the extraction step
    returns a skill list for every text, and whenever the NER strategy
    raises, the step returns what the lexicon strategy returns on the same
    text (after one warning when NER was in use). *)
Theorem extraction_fallback (use_ner : bool) (text : string) :
  (∀ t, ∃ skills, extract_skills t = Ok skills) →
  (∃ skills,
     (extract_document_skills extract_skills extract_skills_ner use_ner text).2
     = Ok skills)
  ∧ (∀ e, extract_skills_ner text = Raise e →
       extract_document_skills extract_skills extract_skills_ner use_ner text
       = (if use_ner then [ner_warning e] else [], extract_skills text)).
Proof.
  intros Htotal. unfold extract_document_skills. split.
  - destruct use_ner; [|apply Htotal].
    destruct (extract_skills_ner text) as [skills|e]; [by exists skills|apply Htotal].
  - intros e Hraise. destruct use_ner; [|done]. by rewrite Hraise.
Qed.

(** When NER is in use and returns, its result is taken as it is. *)
Lemma extraction_ner_result (text : string) (skills : list string) :
  extract_skills_ner text = Ok skills →
  extract_document_skills extract_skills extract_skills_ner true text
  = ([], Ok skills).
Proof. intros Hner. unfold extract_document_skills. by rewrite Hner. Qed.

(** The fallback call is not guarded: what the lexicon strategy raises
    reaches the caller. *)
Lemma extraction_lexicon_raises (text : string) (e e' : py_exn) :
  extract_skills_ner text = Raise e →
  extract_skills text = Raise e' →
  (extract_document_skills extract_skills extract_skills_ner true text).2
  = Raise e'.
Proof.
  intros Hner Hlex. unfold extract_document_skills. by rewrite Hner.
Qed.

End SkillExtractionFacts.

Lemma extraction_fallback_witness :
  let lexicon := λ _ : string, Ok ["python"; "sql"] in
  let ner := λ _ : string, Raise (PyExn "OSError" "Can't find model 'en_core_web_sm'") in
  (∃ skills,
     (extract_document_skills lexicon ner true "I know Python and SQL").2 = Ok skills)
  ∧ extract_document_skills lexicon ner true "I know Python and SQL"
    = (["NER extraction failed, falling back to basic extraction: Can't find model 'en_core_web_sm'"],
       Ok ["python"; "sql"]).
Proof.
  intros lexicon ner.
  assert (Htotal : ∀ t, ∃ skills, lexicon t = Ok skills)
    by (intros t; exists ["python"; "sql"]; reflexivity).
  destruct (extraction_fallback lexicon ner true "I know Python and SQL" Htotal)
    as [Hok Hfallback].
  split; [exact Hok|].
  apply (Hfallback (PyExn "OSError" "Can't find model 'en_core_web_sm'")).
  reflexivity.
Defined.

(** ** Fallback interview questions *)

Lemma py_slice_to_length {A : Type} (xs : list A) (n : Z) :
  length (py_slice_to xs n)
  = Z.to_nat (Z.min (Z.of_nat (length xs))
                    (Z.max 0 (if (n <? 0)%Z then Z.of_nat (length xs) + n else n))).
Proof.
  unfold py_slice_to. destruct (Z.ltb_spec n 0); rewrite length_take; lia.
Qed.

Lemma py_slice_to_elem_of {A : Type} (xs : list A) (n : Z) (x : A) :
  x ∈ py_slice_to xs n → x ∈ xs.
Proof.
  unfold py_slice_to. destruct (n <? 0)%Z; intros Hx;
    apply elem_of_take in Hx as (i & Hi & _); by eapply list_elem_of_lookup_2.
Qed.

(** The fallback questions are the first [question_count] of three fixed
    questions (all but the last [-question_count] for a negative count):
    never more than three, in the fixed order, numbered from 1. *)
Theorem fallback_questions_slice
    (resume_text job_description : string) (skills : list string)
    (question_count : Z) :
  let questions :=
    _create_fallback_questions resume_text job_description skills question_count in
  length questions
  = Z.to_nat (Z.min 3 (Z.max 0 (if (question_count <? 0)%Z
                                then 3 + question_count else question_count)))
  ∧ (length questions ≤ 3)%nat
  ∧ questions `prefix_of` base_questions skills
  ∧ ∀ i q, questions !! i = Some q → q !! "id" = Some (VInt (Z.of_nat i + 1)).
Proof.
  intros questions. unfold questions, _create_fallback_questions.
  assert (Hlen : length (py_slice_to (base_questions skills) question_count)
                 = Z.to_nat (Z.min 3 (Z.max 0 (if (question_count <? 0)%Z
                       then 3 + question_count else question_count)))).
  { by rewrite py_slice_to_length. }
  split; [exact Hlen|]. split; [rewrite Hlen; lia|].
  split.
  - unfold py_slice_to. destruct (question_count <? 0)%Z; apply prefix_take.
  - intros i q Hq.
    assert (Hbase : base_questions skills !! i = Some q).
    { unfold py_slice_to in Hq.
      destruct (question_count <? 0)%Z; by apply lookup_take_Some in Hq as [? _]. }
    destruct i as [|[|[|i]]]; simpl in Hbase; [| | |done];
      injection Hbase as <-; reflexivity.
Qed.

(** ** Question filters *)

Lemma py_eq_str_true (v : option pyval) (s : string) :
  py_eq_str v s = true ↔ v = Some (VStr s).
Proof.
  unfold py_eq_str. destruct v as [[| s' | |]|]; try (split; congruence).
  rewrite bool_decide_eq_true. split; congruence.
Qed.


(** Questions of two different types never overlap. *)
Lemma question_types_disjoint
    (questions : list (gmap string pyval)) (t1 t2 : string) (q : gmap string pyval) :
  t1 ≠ t2 →
  q ∈ get_question_by_type questions t1 → q ∉ get_question_by_type questions t2.
Proof.
  unfold get_question_by_type. rewrite !list_elem_of_filter, !py_eq_str_true.
  intros Hne [H1 _] [H2 _]. congruence.
Qed.

(** ** Finding the JSON object in a reply *)

Lemma string_cons_app_inv (c d : ascii) (s pre rest : string) :
  String c s = pre +:+ String d rest →
  (pre = EmptyString ∧ c = d ∧ s = rest)
  ∨ ∃ pre', pre = String c pre' ∧ s = pre' +:+ String d rest.
Proof.
  destruct pre as [|x pre].
  - intros Heq. change (String c s = String d rest) in Heq.
    injection Heq as -> ->. by left.
  - intros Heq. change (String c s = String x (pre +:+ String d rest)) in Heq.
    injection Heq as -> ->. right. by exists pre.
Qed.

Lemma string_append_assoc (a b c : string) :
  a +:+ b +:+ c = (a +:+ b) +:+ c.
Proof.
  induction a as [|x a IH]; [done|].
  change (String x (a +:+ b +:+ c) = String x ((a +:+ b) +:+ c)). by f_equal.
Qed.

Lemma has_char_app (c : ascii) (a b : string) :
  has_char c (a +:+ b) ↔ has_char c a ∨ has_char c b.
Proof.
  unfold has_char. induction a as [|x a IH]; simpl.
  - tauto.
  - rewrite IH. tauto.
Qed.

Lemma has_close_after (body post : string) :
  has_char "}" ("{" +:+ body +:+ "}" +:+ post).
Proof.
  apply (has_char_app _ "{"). right. apply has_char_app. right.
  apply (has_char_app _ "}"). left. by left.
Qed.

Lemma through_last_close_None (s : string) :
  through_last_close s = None ↔ ¬ has_char "}" s.
Proof.
  unfold has_char. induction s as [|c s IH]; simpl.
  - tauto.
  - destruct (through_last_close s) as [t|].
    + split; [done|]. intros Hno. exfalso. apply Hno. right.
      destruct (in_dec Ascii.ascii_dec "}"%char (list_ascii_of_string s))
        as [Hin|Hin]; [done|].
      by apply IH in Hin.
    + destruct (Ascii.eqb_spec c "}") as [->|Hc].
      * split; [done|]. intros Hno. exfalso. apply Hno. by left.
      * split; [|done]. intros _ [Heq|Hin]; [done|]. by apply IH in Hin.
Qed.

Lemma through_last_close_Some (s t : string) :
  through_last_close s = Some t →
  ∃ body post, s = body +:+ "}" +:+ post ∧ t = body +:+ "}" ∧ ¬ has_char "}" post.
Proof.
  revert t. induction s as [|c s IH]; intros t; simpl; [done|].
  destruct (through_last_close s) as [t'|] eqn:Hs.
  - intros [= <-]. destruct (IH t' eq_refl) as (body & post & -> & -> & Hpost).
    by exists (String c body), post.
  - destruct (Ascii.eqb_spec c "}") as [->|Hc]; [|done].
    intros [= <-]. exists EmptyString, s. repeat split.
    by apply through_last_close_None.
Qed.

(** The search for [\{.*\}] returns the text from the first opening brace
    to the last closing brace, and finds nothing exactly when no opening
    brace is followed by a closing one. *)
Theorem find_json_object_spec (response : string) :
  match find_json_object response with
  | Some json_str =>
      ∃ pre body post,
        response = pre +:+ json_str +:+ post
        ∧ json_str = "{" +:+ body +:+ "}"
        ∧ ¬ has_char "{" pre ∧ ¬ has_char "}" post
  | None =>
      ∀ pre body post, response ≠ pre +:+ "{" +:+ body +:+ "}" +:+ post
  end.
Proof.
  induction response as [|c s IH]; simpl.
  - intros [|? ?] ? ?; discriminate.
  - destruct (Ascii.eqb_spec c "{") as [->|Hc].
    + destruct (through_last_close s) as [t|] eqn:Ht; simpl.
      * destruct (through_last_close_Some _ _ Ht) as (body & post & -> & -> & Hpost).
        exists EmptyString, body, post.
        split.
        { change (String "{" (body +:+ "}" +:+ post)
                  = String "{" ((body +:+ "}") +:+ post)).
          f_equal. apply string_append_assoc. }
        split; [done|]. split; [by intros []|done].
      * apply through_last_close_None in Ht.
        intros pre body post Heq. apply Ht.
        apply string_cons_app_inv in Heq as [(_ & _ & ->)|(pre' & _ & ->)].
        -- apply has_char_app. right. apply has_char_app. left. by left.
        -- apply has_char_app. right. apply has_close_after.
    + destruct (find_json_object s) as [json_str|].
      * destruct IH as (pre & body & post & -> & -> & Hpre & Hpost).
        exists (String c pre), body, post. repeat split; [|done].
        intros [Heq|Hin]; [by apply Hc|by apply Hpre].
      * intros pre body post Heq.
        apply string_cons_app_inv in Heq as [(_ & Hx & _)|(pre' & _ & Hs)].
        -- by apply Hc.
        -- by apply (IH pre' body post).
Qed.

Example find_json_object_examples :
  find_json_object "Sure! {a: {b: 1}} Hope this helps }" = Some "{a: {b: 1}} Hope this helps }"
  ∧ find_json_object "Error: Cannot connect to local Llama model." = None
  ∧ find_json_object "} {" = None.
Proof. by repeat split. Qed.

(** ** Evaluating an answer *)

Section LanguageModelFacts.

Variable available : bool.
Variable call_local_llama : result string.
Variable json_loads : string → result (gmap string pyval).
Variable json_loads_questions :
  string → result (gmap string (list (gmap string pyval))).

(** Once the prompt could be built, the evaluation returns. *)
Lemma evaluate_answer_returns
    (question : gmap string pyval) (user_answer : pystr) (resume_text : string)
    fields :
  evaluation_prompt_fields question = Ok fields →
  ∃ evaluation,
    (evaluate_answer available call_local_llama json_loads
                     question user_answer resume_text).2 = Ok evaluation.
Proof.
  intros Hfields. unfold evaluate_answer. rewrite Hfields.
  destruct available; simpl; [|by eexists].
  destruct call_local_llama as [response|e]; [|by eexists].
  destruct (find_json_object response) as [json_str|]; [|by eexists].
  destruct (json_loads json_str) as [evaluation|e]; by eexists.
Qed.


(** A question that lacks one of the entries the prompt reads makes
    [evaluate_answer] raise [KeyError] while it builds the prompt: before
    the health check, so also when the service is down and the fallback,
    which reads none of them, would have been used. *)
Theorem evaluate_answer_missing_key
    (question : gmap string pyval) (user_answer : pystr)
    (resume_text key : string) :
  key ∈ ["question"; "type"; "category"; "difficulty"; "evaluation_criteria"] →
  question !! key = None →
  ∃ key',
    evaluate_answer available call_local_llama json_loads
                    question user_answer resume_text
    = ([], Raise (KeyError key'))
    ∧ question !! key' = None.
Proof.
  intros Hkey Hmissing.
  unfold evaluate_answer, evaluation_prompt_fields, dict_item.
  destruct (question !! "question") eqn:H1; [|by exists "question"].
  destruct (question !! "type") eqn:H2; [|by exists "type"].
  destruct (question !! "category") eqn:H3; [|by exists "category"].
  destruct (question !! "difficulty") eqn:H4; [|by exists "difficulty"].
  destruct (question !! "evaluation_criteria") eqn:H5;
    [|by exists "evaluation_criteria"].
  exfalso. set_unfold in Hkey.
  destruct Hkey as [->|[->|[->|[->|[->|[]]]]]]; congruence.
Qed.

(** Every fallback question can be evaluated: the prompt finds all the
    entries it reads. *)
Theorem fallback_questions_evaluable
    (resume_text job_description : string) (skills : list string)
    (question_count : Z) (question : gmap string pyval) (user_answer : pystr) :
  question ∈ _create_fallback_questions resume_text job_description skills
                                        question_count →
  ∃ evaluation,
    (evaluate_answer available call_local_llama json_loads
                     question user_answer resume_text).2 = Ok evaluation.
Proof.
  intros Hq. apply py_slice_to_elem_of in Hq.
  unfold base_questions in Hq. set_unfold in Hq.
  destruct Hq as [->|[->|[->|[]]]];
    by eapply evaluate_answer_returns.
Qed.

(** ** Generating questions *)

(** Whenever the service is unavailable, the call raises, the reply holds
    no JSON object or the object does not parse, the caller gets the
    fallback questions: at most three, whatever [question_count] was. *)
Theorem generate_questions_fallback
    (resume_text job_description : string) (skills : list string)
    (question_count : Z) :
  available = false
  ∨ (∃ e, call_local_llama = Raise e)
  ∨ (∃ response, call_local_llama = Ok response
       ∧ match find_json_object response with
         | Some json_str => ∃ e, json_loads_questions json_str = Raise e
         | None => True
         end) →
  let out := generate_interview_questions available call_local_llama
               json_loads_questions resume_text job_description skills
               question_count in
  out.2 = _create_fallback_questions resume_text job_description skills
                                     question_count
  ∧ (length out.2 ≤ 3)%nat.
Proof.
  intros Hcase out.
  assert (Hout : out.2 = _create_fallback_questions resume_text job_description
                           skills question_count).
  { unfold out, generate_interview_questions.
    destruct Hcase as [->|[[e ->]|(response & -> & Hfind)]].
    - done.
    - by destruct available.
    - destruct available; [|done]. simpl.
      destruct (find_json_object response) as [json_str|]; [|done].
      by destruct Hfind as [e ->]. }
  split; [exact Hout|]. rewrite Hout.
  unfold _create_fallback_questions. rewrite py_slice_to_length.
  change (length (base_questions skills)) with 3%nat. lia.
Qed.

(** A reply whose JSON object has no ["questions"] entry yields the empty
    list, not the fallback questions, and no warning. *)
Theorem generate_questions_missing_entry
    (resume_text job_description : string) (skills : list string)
    (question_count : Z) (response json_str : string)
    (questions_data : gmap string (list (gmap string pyval))) :
  available = true →
  call_local_llama = Ok response →
  find_json_object response = Some json_str →
  json_loads_questions json_str = Ok questions_data →
  questions_data !! "questions" = None →
  generate_interview_questions available call_local_llama json_loads_questions
    resume_text job_description skills question_count
  = ([], []).
Proof.
  intros -> -> Hfind Hloads Hmissing. unfold generate_interview_questions.
  simpl. by rewrite Hfind, Hloads, Hmissing.
Qed.

End LanguageModelFacts.


Lemma evaluate_answer_missing_key_witness :
  ∃ key',
    evaluate_answer false (Ok "ignored") (λ _, Raise TypeError)
                    {["question" := VStr "Why Rocq?"]} (py_str "Because proofs.") "resume"
    = ([], Raise (KeyError key'))
    ∧ ({["question" := VStr "Why Rocq?"]} : gmap string pyval) !! key' = None.
Proof.
  apply (evaluate_answer_missing_key false (Ok "ignored") (λ _, Raise TypeError)
           {["question" := VStr "Why Rocq?"]} (py_str "Because proofs.") "resume" "type").
  - set_unfold. right. by left.
  - reflexivity.
Defined.

Lemma fallback_questions_evaluable_witness :
  ∃ evaluation,
    (evaluate_answer true (Ok "no braces here") (λ _, Raise TypeError)
       (list_to_map [
          ("id", VInt 2);
          ("type", VStr "behavioral");
          ("category", VStr "Problem Solving");
          ("difficulty", VStr "medium");
          ("question", VStr "Tell me about a time when you had to learn a new technology quickly for a project.");
          ("follow_up", VStr "How did you ensure you were productive while learning?");
          ("evaluation_criteria",
           VList ["Learning agility"; "Resourcefulness"; "Impact on project"]);
          ("sample_answer_points",
           VList ["Learning strategy"; "Time management"; "Results achieved"])
        ])
       (py_str "I read the manual.") "resume").2 = Ok evaluation.
Proof.
  apply (fallback_questions_evaluable true (Ok "no braces here")
           (λ _, Raise TypeError) "resume" "job" ["python"] 5).
  unfold _create_fallback_questions, py_slice_to, base_questions. simpl.
  set_unfold. right. by left.
Defined.

Lemma generate_questions_fallback_witness :
  (generate_interview_questions false (Ok "ignored") (λ _, Raise TypeError)
     "resume" "job" ["python"] 5).2
  = _create_fallback_questions "resume" "job" ["python"] 5
  ∧ (length (generate_interview_questions false (Ok "ignored")
               (λ _, Raise TypeError) "resume" "job" ["python"] 5).2 ≤ 3)%nat.
Proof.
  apply (generate_questions_fallback false (Ok "ignored") (λ _, Raise TypeError)
           "resume" "job" ["python"] 5).
  by left.
Defined.

Lemma generate_questions_missing_entry_witness :
  generate_interview_questions true (Ok "Here: {}") (λ _, Ok ∅)
    "resume" "job" ["python"] 5
  = ([], []).
Proof.
  apply (generate_questions_missing_entry true (Ok "Here: {}") (λ _, Ok ∅)
           "resume" "job" ["python"] 5 "Here: {}" "{}" ∅); reflexivity.
Defined.

(** ** The match score on arbitrary collections *)

Lemma py_set_size_le (skills : list string) :
  (size (py_set skills) ≤ length skills)%nat.
Proof.
  unfold py_set. induction skills as [|s skills IH]; simpl.
  - done.
  - destruct (decide (s ∈ (list_to_set skills : gset string))) as [Hin|Hnotin].
    + replace ({[s]} ∪ list_to_set skills : gset string)
        with (list_to_set skills : gset string) by set_solver.
      lia.
    + rewrite size_union by set_solver. rewrite size_singleton. lia.
Qed.

(** Whatever the two skill collections are (duplicates, empty lists), the
    match score lies between 0 and 100, so that the progress bar is given
    [match_score / 100] within [0, 1]. *)
Theorem match_score_percentage (resume_skills jd_skills : list string) :
  0 <= match_score resume_skills jd_skills
  ∧ match_score resume_skills jd_skills <= 100
  ∧ 0 <= match_score resume_skills jd_skills / 100
  ∧ match_score resume_skills jd_skills / 100 <= 1.
Proof.
  assert (Hrange : 0 <= match_score resume_skills jd_skills
                   ∧ match_score resume_skills jd_skills <= 100).
  { unfold match_score. destruct jd_skills as [|s jd_skills]; [by split|].
    cbn [truthy].
    pose proof (matched_size_le resume_skills (s :: jd_skills)) as Hle.
    pose proof (py_set_size_le (s :: jd_skills)) as Hle'.
    assert (Hpos : (0 < length (s :: jd_skills))%nat) by (simpl; lia).
    assert (Hmn : (size (matched_skills resume_skills (s :: jd_skills))
                   ≤ length (s :: jd_skills))%nat) by lia.
    destruct (percentage_bounds _ _ Hmn Hpos) as (H0 & H100 & _).
    by split. }
  destruct Hrange as [H0 H100].
  set (score := match_score resume_skills jd_skills) in *.
  assert (Hdiv : score / 100 * 100 == score) by (field; lra).
  repeat split; lra.
Qed.

(** With a non-empty job skill list the score is 0 exactly when no skill
    matched. *)
Theorem match_score_zero (resume_skills jd_skills : list string) :
  jd_skills ≠ [] →
  match_score resume_skills jd_skills == 0
  ↔ matched_skills resume_skills jd_skills = ∅.
Proof.
  intros Hne.
  pose proof (len_pos jd_skills Hne) as Hpos.
  rewrite (match_score_nonempty _ _ Hne).
  set (m := matched_skills resume_skills jd_skills).
  assert (Hm : set_len m == 0 ↔ m = ∅).
  { unfold set_len. change 0 with (inject_Z 0). split.
    - intros Hz. apply (proj1 (inject_Z_injective _ _)) in Hz.
      apply leibniz_equiv, size_empty_inv. lia.
    - by intros ->. }
  rewrite <- Hm. split.
  - intros Hz.
    assert (Hmul : 100 * set_len m / len jd_skills * len jd_skills
                   == 100 * set_len m) by (field; lra).
    rewrite Hz in Hmul. lra.
  - intros ->. field. lra.
Qed.

Lemma match_score_zero_witness :
  match_score ["sql"] ["python"; "docker"] == 0
  ↔ matched_skills ["sql"] ["python"; "docker"] = ∅.
Proof. apply match_score_zero. discriminate. Defined.

(** ** Readiness: what the result can be *)

Lemma round_half_even_bounds (x : Q) (m n : Z) :
  inject_Z m <= x → x <= inject_Z n →
  (m ≤ round_half_even x ≤ n)%Z.
Proof.
  intros Hm Hn.
  pose proof (round_half_even_close x) as Hclose.
  apply Qabs_Qle_condition in Hclose. destruct Hclose as [Hlo Hhi].
  set (r := round_half_even x) in *. split.
  - destruct (Z_lt_le_dec r m) as [Hlt|]; [|done]. exfalso.
    assert (inject_Z (r + 1) <= inject_Z m) by (rewrite <- Zle_Qle; lia).
    rewrite inject_Z_plus in *. change (inject_Z 1) with 1 in *. lra.
  - destruct (Z_lt_le_dec n r) as [Hlt|]; [|done]. exfalso.
    assert (inject_Z (n + 1) <= inject_Z r) by (rewrite <- Zle_Qle; lia).
    rewrite inject_Z_plus in *. change (inject_Z 1) with 1 in *. lra.
Qed.

Lemma py_round1_bounds (x : Q) (lo hi : Z) :
  inject_Z lo <= x → x <= inject_Z hi →
  inject_Z lo <= py_round1 x ∧ py_round1 x <= inject_Z hi.
Proof.
  intros Hlo Hhi. unfold py_round1. rewrite Qred_correct.
  destruct (round_half_even_bounds (x * 10) (lo * 10) (hi * 10)) as [Hl Hh].
  - rewrite inject_Z_mult. change (inject_Z 10) with 10. lra.
  - rewrite inject_Z_mult. change (inject_Z 10) with 10. lra.
  - rewrite Zle_Qle in Hl, Hh. rewrite inject_Z_mult in Hl, Hh.
    change (inject_Z 10) with 10 in *.
    set (k := inject_Z (round_half_even (x * 10))) in *.
    assert (Hk : k / 10 * 10 == k) by (field; lra).
    split; lra.
Qed.

Lemma sum_bounds (scores : list Q) (lo hi : Q) :
  Forall (λ q, lo <= q ∧ q <= hi) scores →
  lo * len scores <= foldr Qplus 0 scores
  ∧ foldr Qplus 0 scores <= hi * len scores.
Proof.
  induction 1 as [|q scores [Hlo Hhi] _ [IHlo IHhi]].
  - unfold len. simpl. change (inject_Z (Z.of_nat 0)) with 0. split; lra.
  - assert (Hlen : len (q :: scores) == len scores + 1).
    { apply (len_app_cons [] scores q). }
    simpl foldr. rewrite Hlen. split; lra.
Qed.

Lemma mean_bounds (scores : list Q) (lo hi : Q) :
  scores ≠ [] →
  Forall (λ q, lo <= q ∧ q <= hi) scores →
  lo <= mean scores ∧ mean scores <= hi.
Proof.
  intros Hne Hall. destruct (sum_bounds _ _ _ Hall) as [Hlo Hhi].
  pose proof (len_pos scores Hne) as Hpos. unfold mean.
  set (total := foldr Qplus 0 scores) in *. set (n := len scores) in *.
  assert (Hdiv : total / n * n == total) by (field; lra).
  split; nra.
Qed.

(** The result for evaluations that carry the numeric scores [scores]. *)
Lemma readiness_of_scores
    (evaluations : list (gmap string pyval)) (scores : list Q) :
  evaluations ≠ [] → Forall2 has_score evaluations scores →
  ∃ d avg level,
    calculate_interview_readiness_score evaluations = Ok d
    ∧ avg == mean scores
    ∧ d !! "overall_score" = Some (VNum (py_round1 avg))
    ∧ d !! "readiness_level" = Some (VStr (level_name level))
    ∧ level_spec avg level.
Proof.
  intros Hne Hscores.
  destruct (py_sum_from_nums scores 0) as (total & Hsum & Htotal).
  rewrite <- (overall_scores_of_scores _ _ Hscores) in Hsum.
  destruct (readiness_nonempty _ _ Hne Hsum) as (d & Hd & Hov & Hlvl & _).
  destruct (readiness_bucket_level (total / len evaluations))
    as (level & Hname & Hspec).
  exists d, (total / len evaluations), level.
  split; [done|]. split.
  { unfold mean, len. rewrite (Forall2_length _ _ _ Hscores), Htotal.
    by rewrite Qplus_0_l. }
  split; [done|]. split; [by rewrite <- Hname|done].
Qed.



(** ** The fallback evaluation as a whole *)

(** The fallback evaluation always has the same seven entries; its four
    sub-scores are the overall score shifted by -5, +5, 0 and +10, all
    percentages within 0..100, and the rating names the rung of the ladder
    the score came from. *)
Theorem fallback_evaluation_shape
    (question : gmap string pyval) (user_answer : pystr) :
  ∃ (score : Z) (scores : gmap string pyval) (rating : string),
    let d := _create_fallback_evaluation question user_answer in
    d !! "overall_score" = Some (VInt score)
    ∧ d !! "scores" = Some (VDict scores)
    ∧ d !! "rating" = Some (VStr rating)
    ∧ dom d = {["overall_score"; "scores"; "strengths"; "improvements";
                "detailed_feedback"; "follow_up_suggestions"; "rating"]}
    ∧ scores !! "technical_depth" = Some (VInt (score - 5))
    ∧ scores !! "communication" = Some (VInt (score + 5))
    ∧ scores !! "problem_solving" = Some (VInt score)
    ∧ scores !! "relevance" = Some (VInt (score + 10))
    ∧ (∀ k v, scores !! k = Some v → ∃ z, v = VInt z ∧ (0 ≤ z ≤ 100)%Z)
    ∧ (rating = "good" ↔ score = 85%Z)
    ∧ (rating = "satisfactory" ↔ score = 70%Z)
    ∧ (rating = "needs_improvement" ↔ score = 55%Z).
Proof.
  unfold _create_fallback_evaluation, fallback_score_rating.
  destruct (100 <? word_count user_answer)%nat;
    [|destruct (50 <? word_count user_answer)%nat];
    eexists _, _, _; cbv zeta;
    (split; [reflexivity|]); (split; [reflexivity|]); (split; [reflexivity|]);
    (split; [reflexivity|]);
    (split; [reflexivity|]); (split; [reflexivity|]); (split; [reflexivity|]);
    (split; [reflexivity|]);
    (split;
     [refine (_ : map_Forall (λ _ v, ∃ z, v = VInt z ∧ (0 ≤ z ≤ 100)%Z) _);
      cbn [list_to_map foldr uncurry fst snd];
      repeat (apply map_Forall_insert_2; [eexists; split; [reflexivity|lia]|]);
      apply map_Forall_empty
     |by repeat split]).
Qed.

(** ** Readiness from fallback evaluations *)

Lemma fallback_has_score (question : gmap string pyval) (user_answer : pystr) :
  has_score (_create_fallback_evaluation question user_answer)
            (inject_Z (fallback_score_rating (word_count user_answer)).1).
Proof. apply fallback_lookup_overall_score. Qed.

Lemma level_spec_below_90 (avg : Q) (level : readiness_level) :
  avg < 90 → level_spec avg level → level ≠ Excellent.
Proof.
  intros Havg (_ & H80 & H70 & H60 & Hlow).
  destruct (Qlt_le_dec avg 60); [by rewrite Hlow|].
  destruct (Qlt_le_dec avg 70); [by rewrite H60|].
  destruct (Qlt_le_dec avg 80); [by rewrite H70|].
  by rewrite H80.
Qed.

Lemma level_spec_not_started (avg : Q) (level : readiness_level) :
  level_spec avg level → level ≠ NotStarted.
Proof.
  intros (H90 & H80 & H70 & H60 & Hlow).
  destruct (Qlt_le_dec avg 60); [by rewrite Hlow|].
  destruct (Qlt_le_dec avg 70); [by rewrite H60|].
  destruct (Qlt_le_dec avg 80); [by rewrite H70|].
  destruct (Qlt_le_dec avg 90); [by rewrite H80|].
  by rewrite H90.
Qed.

(** When every answer was scored by the fallback evaluation, the readiness
    assessment returns an overall score between 55 and 85 and a level that
    is never Excellent. *)
Theorem readiness_of_fallback_evaluations
    (answers : list (gmap string pyval * pystr)) :
  answers ≠ [] →
  ∃ d overall level,
    calculate_interview_readiness_score
      ((λ qa, _create_fallback_evaluation qa.1 qa.2) <$> answers) = Ok d
    ∧ d !! "overall_score" = Some (VNum overall)
    ∧ 55 <= overall ∧ overall <= 85
    ∧ d !! "readiness_level" = Some (VStr (level_name level))
    ∧ level ≠ Excellent ∧ level ≠ NotStarted.
Proof.
  intros Hne.
  set (evaluations := (λ qa, _create_fallback_evaluation qa.1 qa.2) <$> answers).
  set (scores := (λ qa : gmap string pyval * pystr,
                    inject_Z (fallback_score_rating (word_count qa.2)).1)
                 <$> answers).
  assert (Hscores : Forall2 has_score evaluations scores).
  { unfold evaluations, scores. apply Forall2_fmap, Forall2_same_length_lookup.
    split; [done|]. intros i qa qa' Hqa Hqa'.
    assert (qa' = qa) as -> by congruence. apply fallback_has_score. }
  assert (Hrange : Forall (λ q, inject_Z 55 <= q ∧ q <= inject_Z 85) scores).
  { unfold scores. apply Forall_fmap, Forall_forall. intros qa _. simpl.
    destruct (fallback_score_ladder (word_count qa.2)) as (_ & _ & _ & Hcases).
    rewrite <- !Zle_Qle. lia. }
  assert (Hne_e : evaluations ≠ []).
  { unfold evaluations. by destruct answers. }
  assert (Hne_s : scores ≠ []).
  { unfold scores. by destruct answers. }
  destruct (readiness_of_scores _ _ Hne_e Hscores)
    as (d & avg & level & Hd & Havg & Hov & Hlvl & Hspec).
  destruct (mean_bounds _ _ _ Hne_s Hrange) as [Hlo Hhi].
  change (inject_Z 55) with 55 in *. change (inject_Z 85) with 85 in *.
  exists d, (py_round1 avg), level.
  split; [done|]. split; [done|].
  destruct (py_round1_bounds avg 55 85) as [Hlo' Hhi'].
  { change (inject_Z 55) with 55. by rewrite Havg. }
  { change (inject_Z 85) with 85. by rewrite Havg. }
  split; [done|]. split; [done|]. split; [done|].
  split.
  - apply (level_spec_below_90 avg); [rewrite Havg; lra|done].
  - by apply (level_spec_not_started avg).
Qed.

Lemma readiness_of_fallback_evaluations_witness :
  ∃ d overall level,
    calculate_interview_readiness_score
      ((λ qa, _create_fallback_evaluation qa.1 qa.2)
         <$> [((∅ : gmap string pyval), words 120); (∅, py_str "short")]) = Ok d
    ∧ d !! "overall_score" = Some (VNum overall)
    ∧ 55 <= overall ∧ overall <= 85
    ∧ d !! "readiness_level" = Some (VStr (level_name level))
    ∧ level ≠ Excellent ∧ level ≠ NotStarted.
Proof.
  apply (readiness_of_fallback_evaluations
           [((∅ : gmap string pyval), words 120); (∅, py_str "short")]).
  discriminate.
Defined.

(** ** When the readiness assessment returns *)




(** ** Longer answers *)

Lemma py_split_from_nonempty (word s : pystr) :
  word ≠ [] → (1 ≤ length (py_split_from word s))%nat.
Proof.
  revert word. induction s as [|c s IH]; intros word Hne; simpl.
  - destruct word; [done|]. simpl. lia.
  - destruct (py_isspace c).
    + destruct word; [done|]. simpl. lia.
    + by apply IH.
Qed.

Lemma py_split_from_app (word a b : pystr) :
  (length (py_split_from word a) ≤ length (py_split_from word (a ++ b)))%nat.
Proof.
  revert word. induction a as [|c a IH]; intros word.
  - simpl. destruct word as [|x word]; simpl; [lia|].
    by apply py_split_from_nonempty.
  - simpl. destruct (py_isspace c); [|apply IH].
    specialize (IH []). destruct word; simpl; lia.
Qed.

(** Adding text at the end of an answer never lowers its word count, hence
    never lowers the overall score of the fallback evaluation. *)
Theorem fallback_score_longer_answer
    (question : gmap string pyval) (user_answer more : pystr) :
  (word_count user_answer ≤ word_count (user_answer ++ more))%nat
  ∧ ∃ score score' : Z,
      _create_fallback_evaluation question user_answer !! "overall_score"
      = Some (VInt score)
      ∧ _create_fallback_evaluation question (user_answer ++ more)
          !! "overall_score" = Some (VInt score')
      ∧ (score ≤ score')%Z.
Proof.
  assert (Hwc : (word_count user_answer ≤ word_count (user_answer ++ more))%nat)
    by apply py_split_from_app.
  split; [exact Hwc|].
  eexists _, _. rewrite !fallback_lookup_overall_score.
  split; [reflexivity|]. split; [reflexivity|].
  by apply fallback_score_monotone.
Qed.

(** ** Prompt truncation *)

Lemma py_slice_to_take {A : Type} (xs : list A) (n : Z) :
  (0 ≤ n)%Z → py_slice_to xs n = take (Z.to_nat n) xs.
Proof. intros Hn. unfold py_slice_to. destruct (Z.ltb_spec n 0); [lia|done]. Qed.

(** With a non-negative limit, a text of at most [limit] code points is
    returned unchanged; a longer one is cut to its first [limit] code points
    followed by the marker, [limit + 16] code points in all; truncating the
    result again changes nothing. *)
Theorem truncate_spec (text : pystr) (limit : Z) :
  (0 ≤ limit)%Z →
  let r := _truncate text limit in
  ((Z.of_nat (length text) ≤ limit)%Z → r = text)
  ∧ ((limit < Z.of_nat (length text))%Z →
       r = take (Z.to_nat limit) text ++ truncated_marker
       ∧ Z.of_nat (length r) = (limit + 16)%Z)
  ∧ _truncate r limit = r.
Proof.
  intros Hlimit r.
  assert (Hshort : (Z.of_nat (length text) ≤ limit)%Z → r = text).
  { intros Hle. unfold r, _truncate. case_bool_decide as Hempty; [done|].
    by destruct (Z.leb_spec (Z.of_nat (length text)) limit); [|lia]. }
  assert (Hlong : (limit < Z.of_nat (length text))%Z →
            r = take (Z.to_nat limit) text ++ truncated_marker).
  { intros Hlt. unfold r, _truncate. case_bool_decide as Hempty.
    - subst text. simpl in Hlt. lia.
    - destruct (Z.leb_spec (Z.of_nat (length text)) limit); [lia|].
      by rewrite py_slice_to_take. }
  assert (Hlen : (limit < Z.of_nat (length text))%Z →
            Z.of_nat (length r) = (limit + 16)%Z).
  { intros Hlt. rewrite (Hlong Hlt), length_app, length_take.
    change (length truncated_marker) with 16%nat. lia. }
  split; [exact Hshort|]. split; [by split; auto|].
  destruct (Z_le_gt_dec (Z.of_nat (length text)) limit) as [Hle|Hgt].
  - rewrite (Hshort Hle). fold r. by apply Hshort.
  - assert (Hlt : (limit < Z.of_nat (length text))%Z) by lia.
    assert (Hr : r ≠ []).
    { intros Hr. specialize (Hlen Hlt). rewrite Hr in Hlen. simpl in Hlen. lia. }
    unfold _truncate at 1. case_bool_decide; [done|].
    destruct (Z.leb_spec (Z.of_nat (length r)) limit) as [Hle|_];
      [rewrite (Hlen Hlt) in Hle; lia|].
    rewrite py_slice_to_take by done.
    rewrite (Hlong Hlt) at 1. rewrite (Hlong Hlt). f_equal.
    rewrite take_app_le by (rewrite length_take; lia).
    by rewrite take_take, Nat.min_id.
Qed.

Lemma truncate_spec_witness :
  _truncate (py_str "Generate five questions") 8
  = py_str "Generate" ++ truncated_marker
  ∧ _truncate (_truncate (py_str "Generate five questions") 8) 8
    = _truncate (py_str "Generate five questions") 8.
Proof.
  destruct (truncate_spec (py_str "Generate five questions") 8)
    as (_ & _ & Hidem); [lia|].
  split; [reflexivity|exact Hidem].
Defined.

(** A negative limit always truncates, even a short text. *)
Example truncate_negative_limit :
  _truncate (py_str "hello") (-2) = py_str "hel" ++ truncated_marker.
Proof. reflexivity. Qed.

(** The limit counts code points, not bytes: seven kana and kanji, 21 bytes
    in UTF-8, fit a limit of 7. *)
Example truncate_code_points :
  let text := [26085; 26412; 35486; 12486; 12461; 12473; 12488]%N in
  _truncate text 7 = text
  ∧ _truncate text 6 = [26085; 26412; 35486; 12486; 12461; 12473]%N ++ truncated_marker.
Proof. split; reflexivity. Qed.

(** ** Strings *)

Lemma list_ascii_length (s : string) :
  length (list_ascii_of_string s) = String.length s.
Proof. induction s as [|c s IH]; simpl; [done|]. by rewrite IH. Qed.

Lemma string_length_app (a b : string) :
  String.length (a +:+ b) = (String.length a + String.length b)%nat.
Proof.
  induction a as [|c a IH]; [done|].
  change (String c a +:+ b) with (String c (a +:+ b)). simpl. by rewrite IH.
Qed.

Lemma list_ascii_app (a b : string) :
  list_ascii_of_string (a +:+ b)
  = list_ascii_of_string a ++ list_ascii_of_string b.
Proof.
  induction a as [|c a IH]; [done|].
  change (String c a +:+ b) with (String c (a +:+ b)). simpl. by rewrite IH.
Qed.

(** ** Course tracker: the dict *)

Lemma alist_get_None {V : Type} (d : list (string * V)) (k : string) :
  alist_get d k = None ↔ k ∉ d.*1.
Proof.
  induction d as [|[k' v] d IH]; simpl.
  - split; [intros _; apply not_elem_of_nil|done].
  - rewrite not_elem_of_cons. destruct (decide (k' = k)) as [->|Hne].
    + split; [done|]. by intros [? _].
    + rewrite IH. split; [by split|by intros [_ ?]].
Qed.

Lemma alist_get_set_eq {V : Type} (d : list (string * V)) (k : string) (v : V) :
  alist_get (alist_set d k v) k = Some v.
Proof.
  induction d as [|[k' v'] d IH]; simpl.
  - by rewrite decide_True.
  - destruct (decide (k' = k)) as [->|Hne]; simpl.
    + by rewrite decide_True.
    + by rewrite decide_False.
Qed.

Lemma alist_get_set_ne {V : Type} (d : list (string * V)) (k k' : string) (v : V) :
  k ≠ k' → alist_get (alist_set d k v) k' = alist_get d k'.
Proof.
  intros Hne. induction d as [|[k0 v0] d IH]; simpl.
  - by rewrite decide_False.
  - destruct (decide (k0 = k)) as [->|Hne0]; simpl.
    + by rewrite !decide_False.
    + by rewrite IH.
Qed.

Lemma alist_set_new {V : Type} (d : list (string * V)) (k : string) (v : V) :
  alist_get d k = None → alist_set d k v = d ++ [(k, v)].
Proof.
  induction d as [|[k' v'] d IH]; simpl; [done|].
  destruct (decide (k' = k)); [done|]. intros Hnone. by rewrite IH.
Qed.

Lemma alist_set_keys {V : Type} (d : list (string * V)) (k : string) (v v0 : V) :
  alist_get d k = Some v0 → (alist_set d k v).*1 = d.*1.
Proof.
  induction d as [|[k' v'] d IH]; simpl; [done|].
  destruct (decide (k' = k)) as [->|Hne]; [done|].
  intros Hsome. csimpl. f_equal. by apply IH.
Qed.

Lemma alist_set_NoDup {V : Type} (d : list (string * V)) (k : string) (v : V) :
  NoDup d.*1 → NoDup (alist_set d k v).*1.
Proof.
  intros Hnd. destruct (alist_get d k) as [v0|] eqn:Hget.
  - by rewrite (alist_set_keys _ _ _ _ Hget).
  - rewrite (alist_set_new _ _ _ Hget), fmap_app. simpl.
    apply NoDup_app. split; [done|]. split; [|apply NoDup_singleton].
    intros x Hx Hk. apply list_elem_of_singleton in Hk as ->.
    by apply alist_get_None in Hget.
Qed.

Lemma alist_set_Forall {V : Type} (P : V → Prop) (d : list (string * V))
    (k : string) (v : V) :
  Forall P d.*2 → P v → Forall P (alist_set d k v).*2.
Proof.
  intros Hall Hv. induction d as [|[k' v'] d IH]; simpl.
  - by constructor.
  - apply Forall_cons_1 in Hall as [Hv' Hall].
    destruct (decide (k' = k)); simpl; constructor; auto.
Qed.

Lemma alist_get_Forall {V : Type} (P : V → Prop) (d : list (string * V))
    (k : string) (v : V) :
  Forall P d.*2 → alist_get d k = Some v → P v.
Proof.
  induction d as [|[k' v'] d IH]; simpl; [done|].
  intros Hall. apply Forall_cons_1 in Hall as [Hv' Hall].
  destruct (decide (k' = k)); [by intros [= <-]|by apply IH].
Qed.

Lemma alist_del_keys {V : Type} (d : list (string * V)) (k : string) :
  (alist_del d k).*1 `sublist_of` d.*1
  ∧ (alist_del d k).*2 `sublist_of` d.*2.
Proof.
  induction d as [|[k' v'] d [IH1 IH2]]; simpl; [done|].
  destruct (decide (k' = k)); simpl.
  - split; by apply sublist_cons.
  - split; by apply sublist_skip.
Qed.

Lemma alist_del_Forall {V : Type} (P : V → Prop) (d : list (string * V))
    (k : string) :
  Forall P d.*2 → Forall P (alist_del d k).*2.
Proof.
  induction d as [|[k' v'] d IH]; simpl; [done|].
  intros Hall. apply Forall_cons_1 in Hall as [Hv Hall].
  destruct (decide (k' = k)); simpl; [done|]. constructor; auto.
Qed.

Lemma alist_get_del_eq {V : Type} (d : list (string * V)) (k : string) :
  NoDup d.*1 → alist_get (alist_del d k) k = None.
Proof.
  induction d as [|[k' v'] d IH]; simpl; [done|].
  intros Hnd. apply NoDup_cons in Hnd as [Hnotin Hnd].
  destruct (decide (k' = k)) as [->|Hne]; simpl.
  - by apply alist_get_None.
  - rewrite decide_False by done. by apply IH.
Qed.

Lemma alist_get_del_ne {V : Type} (d : list (string * V)) (k k' : string) :
  k ≠ k' → alist_get (alist_del d k) k' = alist_get d k'.
Proof.
  intros Hne. induction d as [|[k0 v0] d IH]; simpl; [done|].
  destruct (decide (k0 = k)) as [->|Hne0]; simpl.
  - by rewrite decide_False.
  - by rewrite IH.
Qed.

(** ** Course tracker: identifiers *)

Lemma py_replace_char_gone (old new : ascii) (s : string) :
  old ≠ new → ¬ has_char old (py_replace_char old new s).
Proof.
  intros Hne. unfold has_char. induction s as [|c s IH]; simpl; [tauto|].
  intros [Heq|Hin]; [|done].
  destruct (Ascii.eqb_spec c old); congruence.
Qed.

Lemma py_replace_char_keeps (old new c : ascii) (s : string) :
  c ≠ new → ¬ has_char c s → ¬ has_char c (py_replace_char old new s).
Proof.
  intros Hne. unfold has_char. induction s as [|x s IH]; simpl; [tauto|].
  intros Hno [Heq|Hin].
  - destruct (Ascii.eqb_spec x old); [congruence|]. apply Hno. by left.
  - apply IH; [|done]. intros ?. apply Hno. by right.
Qed.

Lemma py_replace_char_length (old new : ascii) (s : string) :
  String.length (py_replace_char old new s) = String.length s.
Proof. induction s as [|c s IH]; simpl; [done|]. by rewrite IH. Qed.

(** A course id contains neither a space nor a slash, and is as long as the
    platform and the title with the underscore between them. *)
Theorem course_id_chars (title platform_name : string) :
  ¬ has_char " " (_get_course_id title platform_name)
  ∧ ¬ has_char "/" (_get_course_id title platform_name)
  ∧ String.length (_get_course_id title platform_name)
    = (String.length platform_name + 1 + String.length title)%nat.
Proof.
  unfold _get_course_id. split; [|split].
  - apply py_replace_char_keeps; [done|]. by apply py_replace_char_gone.
  - by apply py_replace_char_gone.
  - rewrite !py_replace_char_length, !string_length_app. simpl. lia.
Qed.

(** Titles that differ only in spaces, slashes and underscores share an id. *)
Example course_id_collision :
  _get_course_id "Machine Learning" "Coursera"
  = _get_course_id "Machine/Learning" "Coursera"
  ∧ _get_course_id "Machine Learning" "Coursera" = "Coursera_Machine_Learning".
Proof. by split. Qed.

(** ** Course tracker: one course *)

Lemma updated_course_ok (n1 n2 : string) (course : CourseProgress)
    (st : option CourseStatus) (pc : option Z) (nt : option string)
    (h r : option Z) :
  course_ok course → course_ok (updated_course n1 n2 course st pc nt h r).
Proof.
  intros (Hp & Hh & Hr & Hc).
  unfold updated_course, apply_status, apply_percentage, course_ok.
  destruct st as [st|], pc as [p|], nt as [n|], h as [h|], r as [r|];
    repeat case_bool_decide; simpl in *; repeat split;
    try lia; try done; try (by eexists); try (by intros; subst);
    try (intros; apply Hc; congruence).
Qed.


(** An update that sets the percentage to 100 or more completes the course:
    the status becomes Completed, the percentage 100 and a completion date
    is set.  An update that only sets the status to Completed forces the
    percentage to 100; if it also passes a percentage below 100, the course
    ends up Completed with that lower percentage. *)
Theorem update_completion (n1 n2 : string) (course : CourseProgress)
    (st : option CourseStatus) (nt : option string) (h r : option Z) (p : Z) :
  ((100 ≤ p)%Z →
     let course' := updated_course n1 n2 course st (Some p) nt h r in
     status course' = COMPLETED ∧ progress_percentage course' = 100%Z
     ∧ ((status course = COMPLETED → is_Some (completion_date course))
        → is_Some (completion_date course')))
  ∧ (let course' := updated_course n1 n2 course (Some COMPLETED) None nt h r in
     status course' = COMPLETED ∧ progress_percentage course' = 100%Z
     ∧ completion_date course' = Some n1)
  ∧ ((p < 100)%Z →
     let course' := updated_course n1 n2 course (Some COMPLETED) (Some p) nt h r in
     status course' = COMPLETED
     ∧ progress_percentage course' = Z.max 0 p
     ∧ (progress_percentage course' < 100)%Z).
Proof.
  unfold updated_course, apply_status, apply_percentage.
  split; [|split].
  - intros Hp.
    destruct st as [st|], nt as [n|], h as [h|], r as [r|];
      repeat case_bool_decide; simpl in *;
      repeat split; try done; try lia; try (by eexists);
      try (destruct (status course); done); try (destruct st; done);
      try (intros Hc; by apply Hc).
  - destruct nt as [n|], h as [h|], r as [r|];
      repeat case_bool_decide; simpl in *; repeat split; done.
  - intros Hp.
    destruct nt as [n|], h as [h|], r as [r|];
      repeat case_bool_decide; simpl in *; repeat split; try done; lia.
Qed.

Lemma update_completion_witness :
  let course' := updated_course "2025-01-02T10:00:00" "2025-01-02T10:00:01"
                   (new_course "Rocq" "Coursera" "http://x")
                   (Some IN_PROGRESS) (Some 120%Z) None None None in
  status course' = COMPLETED ∧ progress_percentage course' = 100%Z
  ∧ is_Some (completion_date course').
Proof.
  destruct (update_completion "2025-01-02T10:00:00" "2025-01-02T10:00:01"
              (new_course "Rocq" "Coursera" "http://x")
              (Some IN_PROGRESS) None None None 120) as [Hdone _].
  destruct Hdone as (Hs & Hp & Hd); [lia|].
  split; [exact Hs|]. split; [exact Hp|]. apply Hd. discriminate.
Defined.

(** ** Course tracker: the operations *)

(** [add_course] returns the id of the course; afterwards the id is
    tracked.  A new id gets a fresh Not Started record at the end of the
    dict; an id that is already tracked leaves the tracker as it was (the
    earlier record, with its url and progress, is kept), so adding the same
    course twice is the same as adding it once. *)
Theorem add_course_spec (progress_data : list (string * CourseProgress))
    (title platform_name link : string) :
  let course_id := _get_course_id title platform_name in
  let out := add_course progress_data title platform_name link in
  out.1 = course_id
  ∧ is_Some (get_course_progress out.2 course_id)
  ∧ (get_course_progress progress_data course_id = None →
       out.2 = progress_data ++ [(course_id, new_course title platform_name link)]
       ∧ get_course_progress out.2 course_id
         = Some (new_course title platform_name link))
  ∧ (is_Some (get_course_progress progress_data course_id) →
       out.2 = progress_data)
  ∧ (∀ other, other ≠ course_id →
       get_course_progress out.2 other = get_course_progress progress_data other)
  ∧ (∀ link', add_course out.2 title platform_name link' = (course_id, out.2)).
Proof.
  intros course_id out. unfold out, add_course, get_course_progress.
  fold course_id.
  destruct (alist_get progress_data course_id) as [course|] eqn:Hget; simpl.
  - rewrite Hget. split; [done|]. split; [by eexists|].
    split; [done|]. by repeat split.
  - rewrite alist_get_set_eq. split; [done|]. split; [by eexists|].
    split; [intros _; split; [by apply alist_set_new|done]|].
    split; [by intros [? [=]]|].
    split; [intros other Hne; by apply alist_get_set_ne|done].
Qed.



(** [delete_course] returns [True] exactly when the id was tracked; after
    it the id is not tracked, and every other course is as before. *)
Theorem delete_course_spec (progress_data : list (string * CourseProgress))
    (course_id : string) :
  NoDup progress_data.*1 →
  let out := delete_course progress_data course_id in
  (out.1 = true ↔ is_Some (get_course_progress progress_data course_id))
  ∧ get_course_progress out.2 course_id = None
  ∧ (∀ other, other ≠ course_id →
       get_course_progress out.2 other = get_course_progress progress_data other)
  ∧ (out.1 = false → out.2 = progress_data).
Proof.
  intros Hnd out. unfold out, delete_course, get_course_progress.
  destruct (alist_get progress_data course_id) as [course|] eqn:Hget; simpl.
  - split; [by split; [eexists|]|]. split; [by apply alist_get_del_eq|].
    split; [|done]. intros other Hne. by apply alist_get_del_ne.
  - split; [split; [done|by intros [? [=]]]|]. by repeat split.
Qed.

Lemma delete_course_spec_witness :
  let d := (add_course [] "Rocq" "Coursera" "http://x").2 in
  ((delete_course d "Coursera_Rocq").1 = true
   ↔ is_Some (get_course_progress d "Coursera_Rocq"))
  ∧ get_course_progress (delete_course d "Coursera_Rocq").2 "Coursera_Rocq" = None
  ∧ (∀ other, other ≠ "Coursera_Rocq" →
       get_course_progress (delete_course d "Coursera_Rocq").2 other
       = get_course_progress d other)
  ∧ ((delete_course d "Coursera_Rocq").1 = false
     → (delete_course d "Coursera_Rocq").2 = d).
Proof.
  intros d.
  apply (delete_course_spec d "Coursera_Rocq").
  apply (bool_decide_unpack _). vm_compute. exact I.
Defined.

(** ** Course tracker: what every reachable tracker satisfies *)

Lemma new_course_ok (title platform_name link : string) :
  course_ok (new_course title platform_name link).
Proof. unfold course_ok. simpl. repeat split; done. Qed.

Lemma run_op_ok (progress_data : list (string * CourseProgress)) (op : tracker_op) :
  tracker_ok progress_data → tracker_ok (run_op progress_data op).
Proof.
  intros [Hnd Hall]. destruct op as [t p u|n1 n2 id st pc nt h r|id]; simpl.
  - unfold add_course.
    destruct (alist_get progress_data (_get_course_id t p)); simpl; [done|].
    split; [by apply alist_set_NoDup|].
    apply alist_set_Forall; [done|apply new_course_ok].
  - unfold update_progress.
    destruct (alist_get progress_data id) as [course|] eqn:Hget; simpl; [|done].
    split; [by apply alist_set_NoDup|].
    apply alist_set_Forall; [done|].
    apply updated_course_ok. by eapply alist_get_Forall.
  - unfold delete_course.
    destruct (alist_get progress_data id); simpl; [|done].
    destruct (alist_del_keys progress_data id) as [Hk _]. split.
    + by apply (sublist_NoDup _ _ Hnd).
    + by apply alist_del_Forall.
Qed.

(** Starting from an empty tracker, after any sequence of add, update and
    delete operations every tracked course has a percentage within 0..100,
    a non-negative number of hours, a rating that is unset or within 1..5,
    and a completion date whenever its status is Completed; and the ids
    are pairwise distinct. *)
Theorem tracker_invariant (ops : list tracker_op) :
  let progress_data := foldl run_op [] ops in
  NoDup progress_data.*1
  ∧ ∀ course_id course,
      get_course_progress progress_data course_id = Some course →
      (0 ≤ progress_percentage course ≤ 100)%Z
      ∧ (0 ≤ actual_hours_spent course)%Z
      ∧ (∀ stars, rating course = Some stars → (1 ≤ stars ≤ 5)%Z)
      ∧ (status course = COMPLETED → is_Some (completion_date course)).
Proof.
  intros progress_data.
  assert (Hok : tracker_ok progress_data).
  { unfold progress_data.
    assert (Hgen : ∀ d, tracker_ok d → tracker_ok (foldl run_op d ops)).
    { induction ops as [|op ops IH]; intros d Hd; [done|].
      simpl. apply IH. by apply run_op_ok. }
    apply Hgen. split; [constructor|constructor]. }
  destruct Hok as [Hnd Hall]. split; [done|].
  intros course_id course Hget.
  destruct (alist_get_Forall _ _ _ _ Hall Hget) as (Hp & Hh & Hr & Hc).
  split; [done|]. split; [done|]. split; [|done].
  intros stars Hstars. by rewrite Hstars in Hr.
Qed.

(** ** Course tracker: counting *)

Lemma alist_set_count_sum (counts : list (string * Z)) (k : string) :
  foldr Z.add 0%Z (alist_set counts k (default 0%Z (alist_get counts k) + 1)%Z).*2
  = (foldr Z.add 0%Z counts.*2 + 1)%Z.
Proof.
  induction counts as [|[k' n] counts IH]; [done|].
  cbn [alist_get alist_set].
  destruct (decide (k' = k)) as [->|Hne]; csimpl.
  - lia.
  - rewrite IH. lia.
Qed.

Lemma alist_set_count_positive (counts : list (string * Z)) (k : string) :
  Forall (λ n, (1 ≤ n)%Z) counts.*2 →
  Forall (λ n, (1 ≤ n)%Z)
    (alist_set counts k (default 0%Z (alist_get counts k) + 1)%Z).*2.
Proof.
  intros Hall. apply alist_set_Forall; [done|].
  destruct (alist_get counts k) as [n|] eqn:Hget; simpl; [|lia].
  pose proof (alist_get_Forall _ _ _ _ Hall Hget). simpl in *. lia.
Qed.

Lemma alist_set_count_keys (counts : list (string * Z)) (k k' : string) (n : Z) :
  k' ∈ (alist_set counts k n).*1 ↔ k' = k ∨ k' ∈ counts.*1.
Proof.
  induction counts as [|[k0 n0] counts IH]; csimpl.
  - rewrite list_elem_of_singleton. split; [by left|]. intros [?|?]; [done|].
    by apply elem_of_nil in H.
  - destruct (decide (k0 = k)) as [->|Hne]; csimpl.
    + rewrite !elem_of_cons. tauto.
    + rewrite !elem_of_cons, IH. tauto.
Qed.

(** The platform breakdown counts every course once: its counts add up to
    the number of tracked courses, each listed platform has at least one
    course, no platform is listed twice, and a platform is listed exactly
    when some tracked course is on it. *)
Theorem platform_breakdown_total (progress_data : list (string * CourseProgress)) :
  let counts := _get_platform_breakdown progress_data in
  foldr Z.add 0%Z counts.*2 = Z.of_nat (length progress_data)
  ∧ Forall (λ n, (1 ≤ n)%Z) counts.*2
  ∧ NoDup counts.*1
  ∧ ∀ p, p ∈ counts.*1 ↔ ∃ course, course ∈ progress_data.*2 ∧ platform course = p.
Proof.
  intros counts. unfold counts, _get_platform_breakdown.
  assert (Hgen : ∀ (courses : list CourseProgress) (acc : list (string * Z)),
    Forall (λ n, (1 ≤ n)%Z) acc.*2 → NoDup acc.*1 →
    let out := foldl (λ platform_counts course,
                 alist_set platform_counts (platform course)
                   (default 0%Z (alist_get platform_counts (platform course)) + 1)%Z)
                 acc courses in
    foldr Z.add 0%Z out.*2 = (foldr Z.add 0%Z acc.*2 + Z.of_nat (length courses))%Z
    ∧ Forall (λ n, (1 ≤ n)%Z) out.*2
    ∧ NoDup out.*1
    ∧ ∀ p, p ∈ out.*1 ↔ p ∈ acc.*1 ∨ ∃ course, course ∈ courses ∧ platform course = p).
  { induction courses as [|course courses IH]; intros acc Hpos Hnd out.
    - unfold out. simpl. split; [lia|]. split; [done|]. split; [done|].
      intros p. split; [by left|]. intros [?|(c & Hc & _)]; [done|].
      by apply elem_of_nil in Hc.
    - unfold out. simpl.
      destruct (IH _ (alist_set_count_positive acc (platform course) Hpos)
                   (alist_set_NoDup acc (platform course) _ Hnd))
        as (Hsum & Hpos' & Hnd' & Hkeys).
      split; [rewrite Hsum, alist_set_count_sum; lia|].
      split; [done|]. split; [done|].
      intros p. rewrite Hkeys, alist_set_count_keys. split.
      + intros [[->|Hacc]|(c & Hc & Hp)].
        * right. exists course. split; [by left|done].
        * by left.
        * right. exists c. split; [by right|done].
      + intros [Hacc|(c & Hc & Hp)].
        * left. by right.
        * apply elem_of_cons in Hc as [->|Hc].
          -- left. by left.
          -- right. by exists c. }
  destruct (Hgen progress_data.*2 []) as (Hsum & Hpos & Hnd & Hkeys);
    [constructor|constructor|].
  rewrite length_fmap in Hsum. split; [by rewrite Hsum|].
  split; [done|]. split; [done|].
  intros p. rewrite Hkeys. split; [|by right].
  intros [Hnil|?]; [by apply elem_of_nil in Hnil|done].
Qed.

(** Every tracked course is in the list of exactly one status: the five
    per-status lists have as many courses in all as the tracker, so the
    completed and in-progress counts never exceed the total. *)
Theorem courses_by_status_partition (progress_data : list (string * CourseProgress)) :
  (length (get_courses_by_status progress_data NOT_STARTED)
   + length (get_courses_by_status progress_data IN_PROGRESS)
   + length (get_courses_by_status progress_data COMPLETED)
   + length (get_courses_by_status progress_data PAUSED)
   + length (get_courses_by_status progress_data DROPPED)
   = length progress_data)%nat
  ∧ ∀ st course,
      course ∈ get_courses_by_status progress_data st
      ↔ course ∈ progress_data.*2 ∧ status course = st.
Proof.
  unfold get_courses_by_status. split.
  - induction progress_data as [|[k course] d IH]; [done|].
    csimpl. rewrite !filter_cons. simpl.
    destruct (status course); repeat case_decide; try done; simpl; lia.
  - intros st course. rewrite list_elem_of_filter. tauto.
Qed.

(** ** Progress tracker *)

Lemma Ok_inj {A : Type} (a b : A) : Ok a = Ok b → a = b.
Proof. by intros [= ->]. Qed.

Lemma dict_add_Ok (d d' : gmap string tracker_value) (key : string) (value : Z) :
  dict_add d key value = Ok d' →
  ∃ n, d !! key = Some (TInt n) ∧ d' = <[key := TInt (n + value)]> d.
Proof.
  unfold dict_add. destruct (d !! key) as [[n| | | | |]|]; try done.
  intros [= <-]. by exists n.
Qed.

Lemma update_activity_steps (d d' : gmap string tracker_value)
    (activity_type : string) (value : Z) (now : datetime) (today : Z)
    (now_award : string → datetime) :
  update_activity d activity_type value now today now_award = Ok d' →
  ∃ d1 d3 d4,
    ((d !! activity_type = None ∧ d1 = d)
     ∨ (is_Some (d !! activity_type) ∧ dict_add d activity_type value = Ok d1))
    ∧ dict_add (<["last_activity" := TTime now]> d1) "total_sessions" 1 = Ok d3
    ∧ _update_streak d3 today = Ok d4
    ∧ _check_achievements d4 now_award = Ok d'.
Proof.
  unfold update_activity. intros Hrun.
  destruct (if bool_decide (is_Some (d !! activity_type))
            then dict_add d activity_type value else Ok d) as [d1|e] eqn:H1;
    [|done].
  change (mbind ?k (Ok ?x)) with (k x) in Hrun. cbv beta zeta in Hrun.
  destruct (dict_add (<["last_activity" := TTime now]> d1) "total_sessions" 1)
    as [d3|e] eqn:H3; [|done].
  change (mbind ?k (Ok ?x)) with (k x) in Hrun. cbv beta in Hrun.
  destruct (_update_streak d3 today) as [d4|e] eqn:H4; [|done].
  change (mbind ?k (Ok ?x)) with (k x) in Hrun. cbv beta in Hrun.
  exists d1, d3, d4. split; [|done].
  case_bool_decide as Hin.
  - right. by split.
  - left. injection H1 as <-. split; [|done].
    by apply eq_None_not_Some.
Qed.

Lemma check_achievements_Ok (d d' : gmap string tracker_value)
    (now_award : string → datetime) :
  _check_achievements d now_award = Ok d' →
  ∃ earned, d !! "achievements" = Some (TAchievements earned)
    ∧ d' = <["achievements" :=
               TAchievements (foldl (award d now_award) earned
                                    _get_available_achievements)]> d.
Proof.
  unfold _check_achievements.
  destruct (d !! "achievements") as [[| | | |earned|]|];
    try (intros Hraise; discriminate Hraise).
  intros Hok. apply Ok_inj in Hok as <-. exists earned. split; reflexivity.
Qed.

(** [update_activity] stores its clock reading as the last activity before
    [_update_streak] compares the last activity with today.  So when both
    readings fall on the same day, a call that returns leaves
    [streak_days] as it was: the streak is not counted up from one day to
    the next.  Only a call during which the day changes adds 1. *)
Theorem update_activity_streak (d d' : gmap string tracker_value)
    (activity_type : string) (value : Z) (now : datetime) (today : Z)
    (now_award : string → datetime) :
  update_activity d activity_type value now today now_award = Ok d' →
  activity_type ≠ "streak_days" →
  d' !! "last_activity" = Some (TTime now)
  ∧ (today = dt_day now → d' !! "streak_days" = d !! "streak_days")
  ∧ (today = (dt_day now + 1)%Z →
       ∃ n, d !! "streak_days" = Some (TInt n)
            ∧ d' !! "streak_days" = Some (TInt (n + 1))).
Proof.
  intros Hrun Hnot.
  destruct (update_activity_steps _ _ _ _ _ _ _ Hrun)
    as (d1 & d3 & d4 & H1 & H3 & H4 & H5).
  assert (Hs1 : d1 !! "streak_days" = d !! "streak_days").
  { destruct H1 as [[_ ->]|[_ Hadd]]; [done|].
    apply dict_add_Ok in Hadd as (n & _ & ->). by rewrite lookup_insert_ne. }
  apply dict_add_Ok in H3 as (n3 & _ & ->).
  apply check_achievements_Ok in H5 as (earned & _ & ->).
  set (d2 := <["last_activity" := TTime now]> d1) in *.
  set (d3 := <["total_sessions" := TInt (n3 + 1)]> d2) in *.
  assert (Hlast : d3 !! "last_activity" = Some (TTime now)).
  { unfold d3, d2. rewrite lookup_insert_ne by done. by rewrite lookup_insert_eq. }
  assert (Hs3 : d3 !! "streak_days" = d !! "streak_days").
  { unfold d3, d2. by rewrite !lookup_insert_ne. }
  unfold _update_streak in H4. rewrite Hlast in H4. cbv beta iota in H4.
  split; [|split].
  - rewrite lookup_insert_ne by done.
    case_bool_decide; [by apply Ok_inj in H4 as <-|].
    case_bool_decide.
    + apply dict_add_Ok in H4 as (n & _ & ->). by rewrite lookup_insert_ne.
    + apply Ok_inj in H4 as <-. by rewrite lookup_insert_ne.
  - intros ->. rewrite bool_decide_true in H4 by done.
    apply Ok_inj in H4 as <-. by rewrite lookup_insert_ne.
  - intros ->. rewrite bool_decide_false in H4 by lia.
    rewrite bool_decide_true in H4 by lia.
    apply dict_add_Ok in H4 as (n & Hn & ->). exists n.
    rewrite <- Hs3. split; [done|].
    rewrite lookup_insert_ne by done. by rewrite lookup_insert_eq.
Qed.

Lemma update_activity_streak_witness :
  let now := {| dt_day := 739000; dt_time := 36000 |} in
  let d := fresh_progress now in
  ∃ d', update_activity d "resumes_analyzed" 1 now 739000 (λ _, now) = Ok d'
    ∧ d' !! "last_activity" = Some (TTime now)
    ∧ d' !! "streak_days" = Some (TInt 0).
Proof.
  intros now d.
  assert (Hrun : ∃ d', update_activity d "resumes_analyzed" 1 now 739000
                         (λ _, now) = Ok d').
  { vm_compute. eexists. reflexivity. }
  destruct Hrun as [d' Hrun]. exists d'. split; [exact Hrun|].
  destruct (update_activity_streak d d' "resumes_analyzed" 1 now 739000
              (λ _, now) Hrun) as (Hlast & Hsame & _).
  { discriminate. }
  split; [exact Hlast|]. rewrite Hsame by reflexivity.
  vm_compute. reflexivity.
Defined.

